(** * Metagenomics_pipeline: kraken_abundance_pipeline.py

    A shallow embedding of [process_sample] and [aggregate_kraken_results]
    from [src/Metagenomics_pipeline/kraken_abundance_pipeline.py], and the
    properties of the report aggregation and of the per-sample driver.

    Python values are modelled as follows.
    - [str] is [string]; texts are taken in their ASCII form.
    - [int] is [Z].
    - A [dict] is an association list in insertion order ([PyDict]):
      assigning to a key that is present keeps the key's position.
    - A pandas [DataFrame] is [DataFrame]: column labels and rows of cells.
    - The file system, the directory listing and the three external tools
      are fields of [World]; what the code writes or calls is recorded as a
      list of [Event]s.
    - A raised exception is an [Exn]; a call either returns or raises
      ([Outcome]). *)

From Stdlib Require Import String Ascii List ZArith Bool Lia.
From Stdlib Require Import Numbers.DecimalString.
Import ListNotations.

Open Scope string_scope.
Open Scope list_scope.

Set Implicit Arguments.

(* ================================================================== *)
(** * Python string primitives *)
(* ================================================================== *)

Definition TAB : ascii := "009"%char.
Definition NL : ascii := "010"%char.
Definition UNDERSCORE : ascii := "_"%char.
Definition SLASH : ascii := "/"%char.

(** [str.isspace] on one ASCII character: TAB, LF, VT, FF, CR, the four
    separators FS GS RS US, and the blank. *)
Definition is_space (c : ascii) : bool :=
  let n := nat_of_ascii c in
  ((9 <=? n) && (n <=? 13) || (28 <=? n) && (n <=? 32))%nat.

Fixpoint lstrip (s : string) : string :=
  match s with
  | EmptyString => EmptyString
  | String c r => if is_space c then lstrip r else s
  end.

Fixpoint rstrip (s : string) : string :=
  match s with
  | EmptyString => EmptyString
  | String c r =>
      match rstrip r with
      | EmptyString => if is_space c then EmptyString else String c EmptyString
      | r' => String c r'
      end
  end.

(** [s.strip()] *)
Definition strip (s : string) : string := rstrip (lstrip s).

(** [s.split(sep)] for a one-character separator: never the empty list. *)
Fixpoint split_on (sep : ascii) (s : string) : list string :=
  match s with
  | EmptyString => [EmptyString]
  | String c r =>
      if Ascii.eqb c sep then EmptyString :: split_on sep r
      else match split_on sep r with
           | [] => [String c EmptyString]
           | x :: xs => String c x :: xs
           end
  end.

(** [sep.join(l)] *)
Fixpoint join (sep : string) (l : list string) : string :=
  match l with
  | [] => EmptyString
  | [x] => x
  | x :: xs => x ++ sep ++ join sep xs
  end.

(** [s.endswith(suffix)] *)
Fixpoint endswith (s suffix : string) : bool :=
  String.eqb s suffix ||
  match s with
  | EmptyString => false
  | String _ r => endswith r suffix
  end.

(** [s.startswith(c)] for a one-character prefix. *)
Definition startswith_char (s : string) (c : ascii) : bool :=
  match s with
  | String d _ => Ascii.eqb d c
  | EmptyString => false
  end.

(** The lines a text file yields when iterated: each keeps its newline,
    the last may lack one, an empty file yields none. *)
Fixpoint file_lines (s : string) : list string :=
  match s with
  | EmptyString => []
  | String c r =>
      if Ascii.eqb c NL then String c EmptyString :: file_lines r
      else match file_lines r with
           | [] => [String c EmptyString]
           | l :: ls => String c l :: ls
           end
  end.

(** [l[:-1]] *)
Definition all_but_last (A : Type) (l : list A) : list A := removelast l.

(** A character does not occur in a string. *)
Fixpoint char_free (c : ascii) (s : string) : bool :=
  match s with
  | EmptyString => true
  | String d r => negb (Ascii.eqb d c) && char_free c r
  end.

(** ** [int(s)] and [str(n)] *)

Definition is_digit (c : ascii) : bool :=
  let n := nat_of_ascii c in ((48 <=? n) && (n <=? 57))%nat.

Definition digit_value (c : ascii) : Z := Z.of_nat (nat_of_ascii c - 48).

(** Digits with single underscores allowed between two digits, as the
    integer literal grammar of [int()] has it.  [prev] tells whether the
    previous character was a digit. *)
Fixpoint int_digits (s : string) (acc : Z) (prev : bool) : option Z :=
  match s with
  | EmptyString => if prev then Some acc else None
  | String c r =>
      if is_digit c then int_digits r (10 * acc + digit_value c)%Z true
      else if Ascii.eqb c UNDERSCORE then
             (if prev then int_digits r acc false else None)
      else None
  end.

(** The white space that [int()] skips around an ASCII literal: TAB, LF,
    VT, FF, CR and the blank, a smaller set than that of [str.strip()]. *)
Definition is_int_space (c : ascii) : bool :=
  let n := nat_of_ascii c in
  ((9 <=? n) && (n <=? 13) || (n =? 32))%nat.

Fixpoint int_lstrip (s : string) : string :=
  match s with
  | EmptyString => EmptyString
  | String c r => if is_int_space c then int_lstrip r else s
  end.

Fixpoint int_rstrip (s : string) : string :=
  match s with
  | EmptyString => EmptyString
  | String c r =>
      match int_rstrip r with
      | EmptyString =>
          if is_int_space c then EmptyString else String c EmptyString
      | r' => String c r'
      end
  end.

(** The number of digits of a literal; underscores and the sign do not
    count. *)
Fixpoint digit_count (s : string) : Z :=
  match s with
  | EmptyString => 0%Z
  | String c r => ((if is_digit c then 1 else 0) + digit_count r)%Z
  end.

(** The default limit on the digits of a decimal conversion
    ([sys.int_info.default_max_str_digits], CPython 3.11 and later). *)
Definition MAX_STR_DIGITS : Z := 4300%Z.

(** [int(s)], base 10: the white space [int()] knows is dropped on both
    sides, one sign is allowed, the digits may be separated by single
    underscores, and a literal of more than [MAX_STR_DIGITS] digits is
    refused; [None] stands for [ValueError]. *)
Definition py_int (s : string) : option Z :=
  match int_rstrip (int_lstrip s) with
  | EmptyString => None
  | String c r =>
      let negative := Ascii.eqb c "-" in
      let body := if negative || Ascii.eqb c "+" then r else String c r in
      if (digit_count body <=? MAX_STR_DIGITS)%Z then
        if negative then option_map Z.opp (int_digits body 0%Z false)
        else int_digits body 0%Z false
      else None
  end.

(** [str(n)] for an [int].  It is applied to counts that [py_int]
    accepted, which have at most [MAX_STR_DIGITS] digits, and to the
    integers of a numeric metadata column, which are 64-bit: in that range
    [str] does not raise. *)
Definition str_of_int (n : Z) : string := NilZero.string_of_int (Z.to_int n).

(** ** [os.path.join(a, b)] (POSIX) *)
Definition os_path_join (a b : string) : string :=
  if startswith_char b SLASH then b
  else if String.eqb a EmptyString || endswith a "/" then a ++ b
  else a ++ "/" ++ b.

(* ================================================================== *)
(** * Python dictionaries *)
(* ================================================================== *)

Section Dict.
Variable V : Type.

Definition PyDict := list (string * V).

(** [d[k]]; [None] stands for [KeyError]. *)
Fixpoint dict_get (k : string) (d : PyDict) : option V :=
  match d with
  | [] => None
  | (k', v) :: d' => if String.eqb k k' then Some v else dict_get k d'
  end.

(** [d[k] = v]: in place when [k] is present, appended otherwise. *)
Fixpoint dict_set (k : string) (v : V) (d : PyDict) : PyDict :=
  match d with
  | [] => [(k, v)]
  | (k', v') :: d' =>
      if String.eqb k k' then (k, v) :: d'
      else (k', v') :: dict_set k v d'
  end.

Definition dict_keys (d : PyDict) : list string := map fst d.

(** [{**d, **e}]: the items of [e] assigned into [d] in order. *)
Definition dict_update (d e : PyDict) : PyDict :=
  fold_left (fun acc kv => dict_set (fst kv) (snd kv) acc) e d.
End Dict.

(* ================================================================== *)
(** * Data model *)
(* ================================================================== *)

(** A value held in a metadata table or in an aggregated record.  Only a
    [str] can compare equal to a sample identifier; any other value
    (float, bool, NaN, ...) is carried by the text [str()] gives it. *)
Inductive Cell : Type :=
| CStr (s : string)
| CInt (n : Z)
| COther (shown : string).

Definition NaN : Cell := COther "nan".

(** [str(v)] *)
Definition cell_str (v : Cell) : string :=
  match v with
  | CStr s => s
  | CInt n => str_of_int n
  | COther t => t
  end.

(** [v == s] for a [str] [s]. *)
Definition cell_eq_str (v : Cell) (s : string) : bool :=
  match v with
  | CStr t => String.eqb t s
  | _ => false
  end.

(** A metadata table: column labels, and one list of cells per row.  A
    row shorter than the labels reads as NaN in the missing places. *)
Record DataFrame : Type := {
  columns : list string;
  rows : list (list Cell)
}.

(** One parsed line of a classification report. *)
Record ReportRow : Type := {
  perc_frag_cover : string;
  nr_frag_cover : string;
  nr_frag_direct_at_taxon : Z;
  rank_code : string;
  ncbi_ID : string;
  scientific_name : string
}.

(** An aggregated record: a [dict] from column label to value. *)
Definition AggregatedRecord := PyDict Cell.

(** The state of the scan: [aggregated_results] and [sampleid]. *)
Definition AggState : Type := (PyDict AggregatedRecord * list string)%type.

(** A raised exception: either an instance of [Exception], or one that
    derives from [BaseException] only ([KeyboardInterrupt], [SystemExit],
    [GeneratorExit]). *)
Inductive Exn : Type :=
| PyException (cls msg : string)
| PyBaseException (cls msg : string).

Definition is_Exception (e : Exn) : bool :=
  match e with
  | PyException _ _ => true
  | PyBaseException _ _ => false
  end.

(** [str(e)] *)
Definition exn_msg (e : Exn) : string :=
  match e with
  | PyException _ m => m
  | PyBaseException _ m => m
  end.

Inductive Outcome (A : Type) : Type :=
| Returns (a : A)
| Raises (e : Exn).
Arguments Raises {A} e.

(** What a run does to the outside: calls of the external tools, lines
    printed by [process_sample], files written by
    [aggregate_kraken_results] (whose own printed line is left out). *)
Inductive Event : Type :=
| CallTrimmomatic (forward reverse base_name output_dir : string) (threads : Z)
| CallBowtie2 (forward reverse base_name index output_dir : string) (threads : Z)
| CallKraken2 (forward reverse base_name db output_dir : string) (threads : Z)
| Print (msg : string)
| WriteFile (path content : string)
| WriteCsv (path column : string) (values : list string).

(** The environment.  The three tools are the wrappers imported from
    [.trimmomatic], [.bowtie2] and [.kraken2]; [read_csv] is
    [pd.read_csv(path, sep=",")]; [read_text] is the text of a file opened
    for reading, as the text layer hands it over (line ends already turned
    into LF); [can_write] tells whether a path can be opened for writing.
    [None] stands for a raised [Exception]. *)
Record World : Type := {
  path_exists : string -> bool;
  run_trimmomatic :
    string -> string -> string -> string -> Z -> Outcome (string * string);
  run_bowtie2 :
    string -> string -> string -> string -> string -> Z ->
    Outcome (string * string);
  run_kraken2 :
    string -> string -> string -> string -> string -> Z -> Outcome string;
  read_csv : string -> option DataFrame;
  listdir : string -> option (list string);
  read_text : string -> option string;
  can_write : string -> bool
}.

(** A small error monad on [option]. *)
Definition obind (A B : Type) (m : option A) (k : A -> option B) : option B :=
  match m with
  | Some a => k a
  | None => None
  end.

Notation "x <- m ;; k" := (obind m (fun x => k))
  (at level 61, m at next level, right associativity).

Fixpoint omap_all (A B : Type) (f : A -> option B) (l : list A)
  : option (list B) :=
  match l with
  | [] => Some []
  | a :: r => b <- f a ;; bs <- omap_all f r ;; Some (b :: bs)
  end.

(* ================================================================== *)
(** * process_sample *)
(* ================================================================== *)

Definition REPORT_SUFFIX : string := "_report.txt".

(** [os.path.join(output_dir, f"{base_name}_report.txt")] *)
Definition precomputed_report_path (output_dir base_name : string) : string :=
  os_path_join output_dir (base_name ++ REPORT_SUFFIX).

(** The body of the [try]: the value of [kraken_report] or the exception
    that left the block, with what happened on the way. *)
Definition process_sample_body (w : World)
    (forward reverse base_name bowtie2_index kraken_db output_dir : string)
    (threads : Z) (run_bowtie use_precomputed_reports : bool)
  : Outcome string * list Event :=
  if negb use_precomputed_reports then
    let ev1 := CallTrimmomatic forward reverse base_name output_dir threads in
    match run_trimmomatic w forward reverse base_name output_dir threads with
    | Raises e => (Raises e, [ev1])
    | Returns (trimmed_forward, trimmed_reverse) =>
        let depleted :=
          if run_bowtie then
            (run_bowtie2 w trimmed_forward trimmed_reverse base_name
               bowtie2_index output_dir threads,
             [CallBowtie2 trimmed_forward trimmed_reverse base_name
                bowtie2_index output_dir threads])
          else (Returns (trimmed_forward, trimmed_reverse), [])
        in
        match depleted with
        | (Raises e, ev2) => (Raises e, ev1 :: ev2)
        | (Returns (unmapped_r1, unmapped_r2), ev2) =>
            (run_kraken2 w unmapped_r1 unmapped_r2 base_name kraken_db
               output_dir threads,
             ev1 :: ev2 ++
             [CallKraken2 unmapped_r1 unmapped_r2 base_name kraken_db
                output_dir threads])
        end
    end
  else
    let kraken_report := precomputed_report_path output_dir base_name in
    if negb (path_exists w kraken_report) then
      (Raises (PyException "FileNotFoundError"
                 ("Precomputed Kraken2 report not found: " ++ kraken_report)),
       [])
    else (Returns kraken_report, []).

(** [except Exception as e]: print and return [None]; anything that is
    not an [Exception] leaves the function. *)
Definition process_sample (w : World)
    (forward reverse base_name bowtie2_index kraken_db output_dir : string)
    (threads : Z) (run_bowtie use_precomputed_reports : bool)
  : Outcome (option string) * list Event :=
  match process_sample_body w forward reverse base_name bowtie2_index
          kraken_db output_dir threads run_bowtie use_precomputed_reports with
  | (Returns kraken_report, evs) => (Returns (Some kraken_report), evs)
  | (Raises e, evs) =>
      if is_Exception e then
        (Returns None,
         evs ++ [Print ("Error processing sample " ++ base_name ++ ": "
                        ++ exn_msg e)])
      else (Raises e, evs)
  end.

(* ================================================================== *)
(** * aggregate_kraken_results *)
(* ================================================================== *)

(** ** Metadata *)

(** Truth value of the [metadata_file] argument: [None] and the empty
    string are false. *)
Definition path_given (metadata_file : option string) : option string :=
  match metadata_file with
  | Some p => if String.eqb p EmptyString then None else Some p
  | None => None
  end.

(** Lines 42-49: the metadata table, or [None] when loading raises or no
    source is available. *)
Definition resolve_metadata (w : World) (metadata_file : option string)
    (sample_id_df : option DataFrame) : option DataFrame :=
  match path_given metadata_file with
  | Some p =>
      if path_exists w p then read_csv w p
      else sample_id_df
  | None => sample_id_df
  end.

(** [metadata.columns[0]] *)
Definition sample_id_col (md : DataFrame) : option string :=
  match columns md with
  | c :: _ => Some c
  | [] => None
  end.

(** [metadata[sample_id_col].unique()]: the cells of the first column.
    When the label is carried by a second column the selection is a
    table, which has no [unique], and the call raises. *)
Definition id_column (md : DataFrame) : option (list Cell) :=
  match columns md with
  | [] => None
  | c :: others =>
      if existsb (String.eqb c) others then None
      else Some (map (fun r => hd NaN r) (rows md))
  end.

(** [extracted_part in metadata[sample_id_col].unique()] *)
Definition in_id_column (md : DataFrame) (sample : string) : option bool :=
  col <- id_column md ;;
  Some (existsb (fun v => cell_eq_str v sample) col).

(** The label/value pairs of one row, in column order. *)
Fixpoint row_items (cols : list string) (row : list Cell)
  : list (string * Cell) :=
  match cols with
  | [] => []
  | c :: cs => (c, hd NaN row) :: row_items cs (tl row)
  end.

(** [metadata.loc[metadata[sample_id_col] == extracted_part].iloc[0].to_dict()] *)
Definition sample_metadata_of (md : DataFrame) (sample : string)
  : option (PyDict Cell) :=
  r <- find (fun r => cell_eq_str (hd NaN r) sample) (rows md) ;;
  Some (dict_update [] (row_items (columns md) r)).

(** ** One report line *)

(** Lines 60-66; [None] stands for [IndexError] or [ValueError]. *)
Definition parse_row (line : string) : option ReportRow :=
  match split_on TAB (strip line) with
  | f0 :: f1 :: f2 :: f3 :: f4 :: f5 :: _ =>
      n <- py_int f2 ;;
      Some {| perc_frag_cover := f0;
              nr_frag_cover := f1;
              nr_frag_direct_at_taxon := n;
              rank_code := f3;
              ncbi_ID := f4;
              scientific_name := f5 |}
  | _ => None
  end.

(** Lines 67-68: ['_'.join(file_name.split('_')[:-1])] *)
Definition extracted_part (file_name : string) : string :=
  join "_" (all_but_last (split_on UNDERSCORE file_name)).

(** Line 69 *)
Definition sampleandtaxonid (sample : string) (r : ReportRow) : string :=
  sample ++ ncbi_ID r.

(** Lines 74-83: the dict display, the metadata items assigned last. *)
Definition fixed_fields (r : ReportRow) (sample : string) : PyDict Cell :=
  [("Perc_frag_cover", CStr (perc_frag_cover r));
   ("Nr_frag_cover", CStr (nr_frag_cover r));
   ("Nr_frag_direct_at_taxon", CInt (nr_frag_direct_at_taxon r));
   ("Rank_code", CStr (rank_code r));
   ("NCBI_ID", CStr (ncbi_ID r));
   ("Scientific_name", CStr (scientific_name r));
   ("SampleID", CStr sample)].

Definition build_record (r : ReportRow) (sample : string)
    (sample_metadata : PyDict Cell) : AggregatedRecord :=
  dict_update (fixed_fields r sample) sample_metadata.

(** Line 71 *)
Definition rank_and_count_ok (read_count : Z) (r : ReportRow) : bool :=
  String.eqb (rank_code r) "S" && (read_count <=? nr_frag_direct_at_taxon r)%Z.

(** Lines 60-83 for one line of one file. *)
Definition process_line (md : DataFrame) (read_count : Z) (file_name : string)
    (st : AggState) (line : string) : option AggState :=
  r <- parse_row line ;;
  let sample := extracted_part file_name in
  let sampleid := snd st ++ [sample] in
  if rank_and_count_ok read_count r then
    known <- in_id_column md sample ;;
    if (known : bool) then
      sample_metadata <- sample_metadata_of md sample ;;
      Some (dict_set (sampleandtaxonid sample r)
              (build_record r sample sample_metadata) (fst st),
            sampleid)
    else Some (fst st, sampleid)
  else Some (fst st, sampleid).

(** Line 59: the loop over the lines of one file. *)
Fixpoint scan_lines (md : DataFrame) (read_count : Z) (file_name : string)
    (st : AggState) (lines : list string) : option AggState :=
  match lines with
  | [] => Some st
  | line :: rest =>
      st' <- process_line md read_count file_name st line ;;
      scan_lines md read_count file_name st' rest
  end.

(** Lines 56-58: the loop over the directory entries. *)
Fixpoint scan_files (w : World) (md : DataFrame) (read_count : Z)
    (kraken_dir : string) (st : AggState) (names : list string)
  : option AggState :=
  match names with
  | [] => Some st
  | file_name :: rest =>
      if endswith file_name REPORT_SUFFIX then
        text <- read_text w (os_path_join kraken_dir file_name) ;;
        st' <- scan_lines md read_count file_name st (file_lines text) ;;
        scan_files w md read_count kraken_dir st' rest
      else scan_files w md read_count kraken_dir st rest
  end.

(** Lines 52-83 *)
Definition scan_reports (w : World) (md : DataFrame) (read_count : Z)
    (kraken_dir : string) : option AggState :=
  names <- listdir w kraken_dir ;;
  scan_files w md read_count kraken_dir ([], []) names.

(** ** Writing the merged table *)

Definition FIXED_HEADERS : list string :=
  ["Perc_frag_cover"; "Nr_frag_cover"; "Nr_frag_direct_at_taxon";
   "Rank_code"; "NCBI_ID"; "Scientific_name"; "SampleID"].

(** Line 89 *)
Definition headers (md : DataFrame) : list string :=
  FIXED_HEADERS ++ tl (columns md).

Definition TABS : string := String TAB EmptyString.
Definition NLS : string := String NL EmptyString.

(** Line 90: the text of the header line. *)
Definition header_line (md : DataFrame) : string :=
  join TABS (headers md) ++ NLS.

(** ["\t".join(str(data[col]) for col in headers)]; [None] stands for
    [KeyError]. *)
Definition render_row (hs : list string) (data : AggregatedRecord)
  : option string :=
  vals <- omap_all (fun col => option_map cell_str (dict_get col data)) hs ;;
  Some (join TABS vals).

(** Lines 91-92: rows are appended to what is already written; when one
    raises, the text written so far stays in the file. *)
Fixpoint write_rows (hs : list string)
    (items : list (string * AggregatedRecord)) (out : string)
  : string * bool :=
  match items with
  | [] => (out, true)
  | (_, data) :: rest =>
      match render_row hs data with
      | Some row => write_rows hs rest (out ++ row ++ NLS)
      | None => (out, false)
      end
  end.

Definition MERGED_NAME : string := "merged_kraken1.tsv".
Definition SAMPLE_IDS_NAME : string := "sample_ids.csv".

(** Lines 40-49, 52-83: everything before the first write. *)
Definition gather (w : World) (kraken_dir : string)
    (metadata_file : option string) (sample_id_df : option DataFrame)
    (read_count : Z) : option (DataFrame * AggState) :=
  md <- resolve_metadata w metadata_file sample_id_df ;;
  _ <- sample_id_col md ;;
  st <- scan_reports w md read_count kraken_dir ;;
  Some (md, st).

(** The whole function: the returned value ([None] for Python's [None])
    and the files written. *)
Definition aggregate_kraken_results (w : World) (kraken_dir : string)
    (metadata_file : option string) (sample_id_df : option DataFrame)
    (read_count : Z) : option string * list Event :=
  match gather w kraken_dir metadata_file sample_id_df read_count with
  | None => (None, [])
  | Some (md, (aggregated_results, sampleid)) =>
      let merged_tsv_path := os_path_join kraken_dir MERGED_NAME in
      if can_write w merged_tsv_path then
        match write_rows (headers md) aggregated_results (header_line md) with
        | (content, true) =>
            let sampleid_csv_path := os_path_join kraken_dir SAMPLE_IDS_NAME in
            if can_write w sampleid_csv_path then
              (Some merged_tsv_path,
               [WriteFile merged_tsv_path content;
                WriteCsv sampleid_csv_path "Sample_IDs" sampleid])
            else (None, [WriteFile merged_tsv_path content])
        | (content, false) => (None, [WriteFile merged_tsv_path content])
        end
      else (None, [])
  end.

(* ================================================================== *)
(** * Vocabulary of the statements *)
(* ================================================================== *)

(** A directory entry is a report when its name ends in [_report.txt]. *)
Definition is_report (file_name : string) : bool :=
  endswith file_name REPORT_SUFFIX.

(** The rows met by the scan, in the order met: every line of every
    report among [names], paired with the name of its file. *)
Definition rows_read (w : World) (kraken_dir : string) (names : list string)
  : list (string * string) :=
  flat_map
    (fun file_name =>
       if is_report file_name then
         match read_text w (os_path_join kraken_dir file_name) with
         | Some text => map (pair file_name) (file_lines text)
         | None => []
         end
       else [])
    names.

(** The sample identifier occurs in the first column of the metadata. *)
Definition id_present (md : DataFrame) (sample : string) : bool :=
  existsb (fun r => cell_eq_str (hd NaN r) sample) (rows md).

(** The key and record that the line [line] of the file [file_name]
    gives, if it gives one. *)
Definition contribution (md : DataFrame) (read_count : Z)
    (e : string * string) : option (string * AggregatedRecord) :=
  let sample := extracted_part (fst e) in
  r <- parse_row (snd e) ;;
  if rank_and_count_ok read_count r && id_present md sample then
    m <- sample_metadata_of md sample ;;
    Some (sampleandtaxonid sample r, build_record r sample m)
  else None.

(** The three conditions on a row [r] of the report [file_name]: species
    rank, enough fragments assigned directly, sample identifier in the
    first column of the metadata. *)
Definition selected (md : DataFrame) (read_count : Z) (file_name : string)
    (r : ReportRow) : Prop :=
  rank_code r = "S" /\
  (read_count <= nr_frag_direct_at_taxon r)%Z /\
  In (CStr (extracted_part file_name)) (map (fun row => hd NaN row) (rows md)).


(** Assigning the contributions of a list of elements, in order, into a
    dictionary: [f] gives the key and value of an element, if any. *)
Section Absorb.
Variables (E V : Type) (f : E -> option (string * V)).

Definition absorb (d : PyDict V) (e : E) : PyDict V :=
  match f e with
  | Some (k, v) => dict_set k v d
  | None => d
  end.

Definition absorb_all (d : PyDict V) (l : list E) : PyDict V :=
  fold_left absorb l d.

(** No element of [l] contributes to the key [k]. *)
Definition silent (k : string) (l : list E) : Prop :=
  forall e v, In e l -> f e <> Some (k, v).

Definition hits (k : string) (e : E) : bool :=
  match f e with
  | Some (k', _) => String.eqb k' k
  | None => false
  end.
End Absorb.

(** The values of a record hold no TAB. *)
Definition tab_free_record (data : AggregatedRecord) : Prop :=
  forall k v, In (k, v) data -> char_free TAB (cell_str v) = true.

(** A record has a value under every header. *)
Definition covers (hs : list string) (data : AggregatedRecord) : Prop :=
  forall col, In col hs -> In col (dict_keys data).


(** The text of the data rows, each closed by a newline. *)
Definition rows_text (rows : list string) : string :=
  fold_right (fun row acc => row ++ NLS ++ acc)%string EmptyString rows.

(** A step of [process_sample] raises [e]: the missing precomputed
    report, or one of the three tools. *)
Inductive step_raises (w : World)
    (forward reverse base_name bowtie2_index kraken_db output_dir : string)
    (threads : Z) (run_bowtie : bool) : bool -> Exn -> Prop :=
| raise_missing_report :
    path_exists w (precomputed_report_path output_dir base_name) = false ->
    step_raises w forward reverse base_name bowtie2_index kraken_db
      output_dir threads run_bowtie true
      (PyException "FileNotFoundError"
         ("Precomputed Kraken2 report not found: "
          ++ precomputed_report_path output_dir base_name))
| raise_trimmomatic : forall e,
    run_trimmomatic w forward reverse base_name output_dir threads = Raises e ->
    step_raises w forward reverse base_name bowtie2_index kraken_db
      output_dir threads run_bowtie false e
| raise_bowtie2 : forall tf tr e,
    run_trimmomatic w forward reverse base_name output_dir threads
      = Returns (tf, tr) ->
    run_bowtie = true ->
    run_bowtie2 w tf tr base_name bowtie2_index output_dir threads = Raises e ->
    step_raises w forward reverse base_name bowtie2_index kraken_db
      output_dir threads run_bowtie false e
| raise_kraken2 : forall tf tr u1 u2 e,
    run_trimmomatic w forward reverse base_name output_dir threads
      = Returns (tf, tr) ->
    (if run_bowtie
     then run_bowtie2 w tf tr base_name bowtie2_index output_dir threads
     else Returns (tf, tr)) = Returns (u1, u2) ->
    run_kraken2 w u1 u2 base_name kraken_db output_dir threads = Raises e ->
    step_raises w forward reverse base_name bowtie2_index kraken_db
      output_dir threads run_bowtie false e.

(* ================================================================== *)
(** * Sample inputs *)
(* ================================================================== *)

(** A report of two rows, a species and a genus. *)
Definition sample_report : string :=
  ("12.5" ++ TABS ++ "100" ++ TABS ++ "50" ++ TABS ++ "S" ++ TABS ++ "9606"
   ++ TABS ++ "Homo sapiens" ++ NLS
   ++ "3.1" ++ TABS ++ "20" ++ TABS ++ "10" ++ TABS ++ "G" ++ TABS ++ "9605"
   ++ TABS ++ "Homo" ++ NLS)%string.

Definition sample_metadata : DataFrame :=
  {| columns := ["sample"; "site"];
     rows := [[CStr "s_1"; CStr "Lagos"]; [CStr "s_2"; CStr "Kano"]] |}.


(** A directory [k] holding the report of the sample [s_1] and one file
    more, a directory [e] without reports; the report [out/x_report.txt]
    and the metadata file [meta.csv] exist; the tools succeed. *)
Definition sample_world : World :=
  {| path_exists := fun p => String.eqb p "out/x_report.txt"
                             || String.eqb p "meta.csv";
     run_trimmomatic := fun f r _ _ _ => Returns ((f ++ ".trimmed")%string,
                                                  (r ++ ".trimmed")%string);
     run_bowtie2 := fun f r _ _ _ _ => Returns ((f ++ ".unmapped")%string,
                                                (r ++ ".unmapped")%string);
     run_kraken2 := fun _ _ b _ o _ => Returns (o ++ "/" ++ b ++ "_report.txt")%string;
     read_csv := fun p => if String.eqb p "meta.csv"
                          then Some sample_metadata else None;
     listdir := fun d => if String.eqb d "k"
                         then Some ["s_1_report.txt"; "notes.txt"]
                         else if String.eqb d "e" then Some ["notes.txt"]
                         else None;
     read_text := fun p => if String.eqb p "k/s_1_report.txt"
                           then Some sample_report else None;
     can_write := fun _ => true |}.

(** The same, with the first tool interrupted from the keyboard. *)
Definition interrupted_world : World :=
  {| path_exists := path_exists sample_world;
     run_trimmomatic := fun _ _ _ _ _ =>
       Raises (PyBaseException "KeyboardInterrupt" "");
     run_bowtie2 := run_bowtie2 sample_world;
     run_kraken2 := run_kraken2 sample_world;
     read_csv := read_csv sample_world;
     listdir := listdir sample_world;
     read_text := read_text sample_world;
     can_write := can_write sample_world |}.

(** The same, with the second tool failing. *)
Definition failing_world : World :=
  {| path_exists := path_exists sample_world;
     run_trimmomatic := run_trimmomatic sample_world;
     run_bowtie2 := fun _ _ _ _ _ _ =>
       Raises (PyException "CalledProcessError" "bowtie2 failed");
     run_kraken2 := run_kraken2 sample_world;
     read_csv := read_csv sample_world;
     listdir := listdir sample_world;
     read_text := read_text sample_world;
     can_write := can_write sample_world |}.

(* ================================================================== *)
(** * Vocabulary of the further statements *)
(* ================================================================== *)

Definition is_print (ev : Event) : bool :=
  match ev with Print _ => true | _ => false end.

Definition is_bowtie2_call (ev : Event) : bool :=
  match ev with CallBowtie2 _ _ _ _ _ _ => true | _ => false end.

Definition is_kraken2_call (ev : Event) : bool :=
  match ev with CallKraken2 _ _ _ _ _ _ => true | _ => false end.

Definition is_write (ev : Event) : bool :=
  match ev with WriteFile _ _ | WriteCsv _ _ _ => true | _ => false end.

(** A string made of white space only. *)
Fixpoint all_space (s : string) : bool :=
  match s with
  | EmptyString => true
  | String c r => is_space c && all_space r
  end.

(** The keys in the order in which they are first met. *)
Definition add_key (ks : list string) (k : string) : list string :=
  if existsb (String.eqb k) ks then ks else ks ++ [k].

Definition first_seen (ks : list string) : list string :=
  fold_left add_key ks [].

(** The keys of the rows that give a record, one per such row, in the
    order read. *)
Definition selected_keys (md : DataFrame) (read_count : Z)
    (l : list (string * string)) : list string :=
  flat_map (fun e => match contribution md read_count e with
                     | Some (k, _) => [k]
                     | None => []
                     end) l.

(** The six fields of a line: at least six TAB-separated pieces once the
    surrounding white space is dropped, the third an integer. *)
Definition well_formed_line (line : string) : Prop :=
  (6 <= length (split_on TAB (strip line)))%nat /\
  py_int (nth 2 (split_on TAB (strip line)) EmptyString) <> None.

(** A metadata table whose second column bears the name of a fixed
    field. *)
Definition clashing_metadata : DataFrame :=
  {| columns := ["sample"; "Scientific_name"];
     rows := [[CStr "s_1"; CStr "curated"]] |}.


(** A report with the same species twice, the second time with too few
    fragments for a threshold of 30. *)
Definition two_counts_report : string :=
  ("1.0" ++ TABS ++ "60" ++ TABS ++ "50" ++ TABS ++ "S" ++ TABS ++ "562"
   ++ TABS ++ "first" ++ NLS
   ++ "2.0" ++ TABS ++ "11" ++ TABS ++ "10" ++ TABS ++ "S" ++ TABS ++ "562"
   ++ TABS ++ "second" ++ NLS)%string.

(** A report whose count starts with the separator FS, which
    [str.strip()] drops and [int()] does not. *)
Definition fs_count_report : string :=
  ("1.0" ++ TABS ++ "60" ++ TABS ++ String "028" "50" ++ TABS ++ "G" ++ TABS
   ++ "562" ++ TABS ++ "x" ++ NLS)%string.

(** The sample world with the text of the report of [s_1] replaced. *)
Definition one_report_world (text : string) : World :=
  {| path_exists := path_exists sample_world;
     run_trimmomatic := run_trimmomatic sample_world;
     run_bowtie2 := run_bowtie2 sample_world;
     run_kraken2 := run_kraken2 sample_world;
     read_csv := read_csv sample_world;
     listdir := listdir sample_world;
     read_text := fun p => if String.eqb p "k/s_1_report.txt"
                           then Some text else None;
     can_write := can_write sample_world |}.

(** The sample world in which the report of [s_1] in the directory [k]
    is known to exist. *)
Definition archive_world : World :=
  {| path_exists := fun p => String.eqb p "k/s_1_report.txt";
     run_trimmomatic := run_trimmomatic sample_world;
     run_bowtie2 := run_bowtie2 sample_world;
     run_kraken2 := run_kraken2 sample_world;
     read_csv := read_csv sample_world;
     listdir := listdir sample_world;
     read_text := read_text sample_world;
     can_write := can_write sample_world |}.

(** A metadata table listing the sample [s_1] twice. *)
Definition repeated_metadata : DataFrame :=
  {| columns := ["sample"; "site"];
     rows := [[CStr "s_0"; CStr "Jos"]; [CStr "s_1"; CStr "Lagos"];
              [CStr "s_1"; CStr "Kano"]] |}.

(** A report with a species met twice and a second species between. *)
Definition repeated_report : string :=
  ("1.0" ++ TABS ++ "9" ++ TABS ++ "9" ++ TABS ++ "S" ++ TABS ++ "562"
   ++ TABS ++ "Escherichia coli" ++ NLS
   ++ "2.0" ++ TABS ++ "8" ++ TABS ++ "8" ++ TABS ++ "S" ++ TABS ++ "1280"
   ++ TABS ++ "Staphylococcus aureus" ++ NLS
   ++ "3.0" ++ TABS ++ "7" ++ TABS ++ "7" ++ TABS ++ "S" ++ TABS ++ "562"
   ++ TABS ++ "E. coli" ++ NLS)%string.

(** A report whose only line has a word where the count is expected. *)
Definition bad_report : string :=
  ("0.5" ++ TABS ++ "3" ++ TABS ++ "three" ++ TABS ++ "S" ++ TABS ++ "11"
   ++ TABS ++ "x" ++ NLS)%string.

(** A directory [k] with the report of [s_1] and a second report; the
    second is given by [second]: its text, or [None] when unreadable. *)
Definition two_report_world (second : option string) : World :=
  {| path_exists := path_exists sample_world;
     run_trimmomatic := run_trimmomatic sample_world;
     run_bowtie2 := run_bowtie2 sample_world;
     run_kraken2 := run_kraken2 sample_world;
     read_csv := read_csv sample_world;
     listdir := fun d => if String.eqb d "k"
                         then Some ["s_1_report.txt"; "s_2_report.txt"]
                         else None;
     read_text := fun p => if String.eqb p "k/s_1_report.txt"
                           then Some repeated_report
                           else if String.eqb p "k/s_2_report.txt" then second
                           else None;
     can_write := can_write sample_world |}.

(* ================================================================== *)
(** * Strings: splitting, joining, suffixes *)
(* ================================================================== *)

Lemma split_on_not_nil (c : ascii) (s : string) : split_on c s <> [].
Proof.
  destruct s as [|d r]; simpl; [discriminate|].
  destruct (Ascii.eqb d c); [discriminate|].
  destruct (split_on c r); discriminate.
Qed.

Lemma split_on_cons (c d : ascii) (r : string) :
  Ascii.eqb d c = false ->
  exists x xs, split_on c r = x :: xs /\ split_on c (String d r) = String d x :: xs.
Proof.
  intros Hd. simpl. rewrite Hd.
  destruct (split_on c r) as [|x xs] eqn:E.
  - exfalso. exact (split_on_not_nil c r E).
  - exists x, xs. split; reflexivity.
Qed.

Lemma split_on_free (c : ascii) (s : string) :
  char_free c s = true -> split_on c s = [s].
Proof.
  induction s as [|d r IH]; simpl; intros H; [reflexivity|].
  apply andb_true_iff in H. destruct H as [Hd Hr].
  apply negb_true_iff in Hd. rewrite Hd, (IH Hr). reflexivity.
Qed.

Lemma split_on_app (c : ascii) (p t : string) :
  split_on c (p ++ String c t) = split_on c p ++ split_on c t.
Proof.
  induction p as [|d r IH]; simpl.
  - rewrite Ascii.eqb_refl. reflexivity.
  - destruct (Ascii.eqb d c); simpl.
    + rewrite IH. reflexivity.
    + rewrite IH. destruct (split_on c r) as [|x xs] eqn:E.
      * exfalso. exact (split_on_not_nil c r E).
      * reflexivity.
Qed.

Lemma split_on_free_pieces (c : ascii) (s : string) :
  Forall (fun x => char_free c x = true) (split_on c s).
Proof.
  induction s as [|d r IH]; simpl.
  - repeat constructor.
  - destruct (Ascii.eqb d c) eqn:Hd.
    + constructor; [reflexivity | exact IH].
    + destruct (split_on c r) as [|x xs] eqn:E.
      * exfalso. exact (split_on_not_nil c r E).
      * inversion IH; subst.
        constructor; [|assumption]. simpl. rewrite Hd. simpl. assumption.
Qed.

Lemma join_cons (sep x y : string) (l : list string) :
  join sep (x :: y :: l) = (x ++ sep ++ join sep (y :: l))%string.
Proof. reflexivity. Qed.

Lemma join_split_on (c : ascii) (s : string) :
  join (String c EmptyString) (split_on c s) = s.
Proof.
  induction s as [|d r IH]; simpl; [reflexivity|].
  destruct (Ascii.eqb d c) eqn:Hd.
  - apply Ascii.eqb_eq in Hd. subst d.
    destruct (split_on c r) as [|x xs] eqn:E.
    + exfalso. exact (split_on_not_nil c r E).
    + simpl in *. rewrite IH. reflexivity.
  - destruct (split_on c r) as [|x xs] eqn:E.
    + exfalso. exact (split_on_not_nil c r E).
    + destruct xs as [|y ys]; simpl in *; rewrite <- IH; reflexivity.
Qed.

Lemma split_on_free_head (c : ascii) (x rest : string) :
  char_free c x = true ->
  split_on c (x ++ String c rest) = x :: split_on c rest.
Proof.
  intros H. rewrite split_on_app, (split_on_free c x H). reflexivity.
Qed.

(** Splitting what was joined gives the pieces back. *)
Lemma split_on_join (c : ascii) (l : list string) :
  l <> [] ->
  Forall (fun x => char_free c x = true) l ->
  split_on c (join (String c EmptyString) l) = l.
Proof.
  induction l as [|x xs IH]; intros Hne Hall; [congruence|].
  inversion Hall as [|? ? Hx Hxs]; subst.
  destruct xs as [|y ys].
  - simpl. apply split_on_free. assumption.
  - rewrite join_cons. simpl String.append.
    rewrite split_on_free_head by assumption.
    f_equal. apply IH; [discriminate | assumption].
Qed.

Lemma char_free_app (c : ascii) (a b : string) :
  char_free c (a ++ b) = char_free c a && char_free c b.
Proof.
  induction a as [|d r IH]; simpl; [reflexivity|].
  rewrite IH. apply andb_assoc.
Qed.

Lemma endswith_unfold (s suffix : string) :
  endswith s suffix =
  String.eqb s suffix ||
  match s with
  | EmptyString => false
  | String _ r => endswith r suffix
  end.
Proof. destruct s; reflexivity. Qed.

Lemma endswith_app (p suffix : string) : endswith (p ++ suffix) suffix = true.
Proof.
  induction p as [|d r IH].
  - change (EmptyString ++ suffix)%string with suffix.
    rewrite endswith_unfold, String.eqb_refl. reflexivity.
  - change (String d r ++ suffix)%string with (String d (r ++ suffix)).
    rewrite endswith_unfold, IH. apply orb_true_r.
Qed.

Lemma endswith_inv (s suffix : string) :
  endswith s suffix = true -> exists p, s = (p ++ suffix)%string.
Proof.
  induction s as [|d r IH]; rewrite endswith_unfold; intros H.
  - rewrite orb_false_r in H. apply String.eqb_eq in H. subst.
    exists EmptyString. reflexivity.
  - apply orb_true_iff in H. destruct H as [H|H].
    + apply String.eqb_eq in H. exists EmptyString. simpl. congruence.
    + destruct (IH H) as [p Hp]. exists (String d p). simpl. congruence.
Qed.

Lemma removelast_snoc (A : Type) (l : list A) (x : A) :
  removelast (l ++ [x]) = l.
Proof. apply removelast_last. Qed.

(** The sample identifier of [<p>_report.txt] is [p], whatever
    underscores [p] holds. *)
Lemma extracted_part_app (p : string) :
  extracted_part (p ++ REPORT_SUFFIX) = p.
Proof.
  unfold extracted_part, all_but_last, REPORT_SUFFIX.
  change "_report.txt" with (String UNDERSCORE "report.txt").
  rewrite split_on_app.
  rewrite (split_on_free UNDERSCORE "report.txt" eq_refl).
  rewrite removelast_snoc.
  apply (join_split_on UNDERSCORE).
Qed.

(* ================================================================== *)
(** * Dictionaries: lookup after assignment *)
(* ================================================================== *)

Section DictFacts.
Variable V : Type.
Implicit Types (d : PyDict V) (k : string) (v : V).

Lemma dict_get_set_same k v d : dict_get k (dict_set k v d) = Some v.
Proof.
  induction d as [|[k' v'] d IH]; simpl.
  - rewrite String.eqb_refl. reflexivity.
  - destruct (String.eqb k k') eqn:E; simpl.
    + rewrite String.eqb_refl. reflexivity.
    + rewrite E. exact IH.
Qed.

Lemma dict_get_set_other k k0 v d :
  k0 <> k -> dict_get k0 (dict_set k v d) = dict_get k0 d.
Proof.
  intros Hne. induction d as [|[k' v'] d IH]; simpl.
  - apply String.eqb_neq in Hne. rewrite Hne. reflexivity.
  - destruct (String.eqb k k') eqn:E; simpl.
    + apply String.eqb_eq in E. subst k'.
      apply String.eqb_neq in Hne. rewrite Hne. reflexivity.
    + rewrite IH. reflexivity.
Qed.

Lemma dict_set_In k v d (kv : string * V) :
  In kv (dict_set k v d) -> kv = (k, v) \/ In kv d.
Proof.
  induction d as [|[k' v'] d IH]; simpl.
  - intros [H|[]]. left. congruence.
  - destruct (String.eqb k k'); simpl.
    + intros [H|H]; [left; congruence | right; right; exact H].
    + intros [H|H]; [right; left; exact H|].
      destruct (IH H) as [H'|H']; [left | right; right]; assumption.
Qed.

Lemma dict_keys_set k v d (x : string) :
  In x (dict_keys (dict_set k v d)) <-> x = k \/ In x (dict_keys d).
Proof.
  unfold dict_keys. induction d as [|[k' v'] d IH]; simpl.
  - intuition congruence.
  - destruct (String.eqb k k') eqn:E; simpl.
    + apply String.eqb_eq in E. subst k'. intuition congruence.
    + rewrite IH. intuition congruence.
Qed.

Lemma dict_set_NoDup k v d :
  NoDup (dict_keys d) -> NoDup (dict_keys (dict_set k v d)).
Proof.
  induction d as [|[k' v'] d IH]; simpl; intros H.
  - constructor; [intros [] | constructor].
  - inversion H as [|? ? Hnin Hnd]; subst.
    destruct (String.eqb k k') eqn:E; simpl.
    + apply String.eqb_eq in E. subst k'. constructor; assumption.
    + constructor; [|apply IH; assumption].
      intros Hin. apply dict_keys_set in Hin. destruct Hin as [Hin|Hin].
      * apply String.eqb_neq in E. congruence.
      * exact (Hnin Hin).
Qed.

Lemma dict_get_In k v d : dict_get k d = Some v -> In (k, v) d.
Proof.
  induction d as [|[k' v'] d IH]; simpl; [discriminate|].
  destruct (String.eqb k k') eqn:E.
  - apply String.eqb_eq in E. intros H. left. congruence.
  - intros H. right. exact (IH H).
Qed.

Lemma dict_get_keys k d :
  In k (dict_keys d) <-> exists v, dict_get k d = Some v.
Proof.
  unfold dict_keys. induction d as [|[k' v'] d IH]; simpl.
  - split; [intros [] | intros [v H]; discriminate].
  - destruct (String.eqb k k') eqn:E.
    + apply String.eqb_eq in E. subst k'. split; [|auto].
      intros _. exists v'. reflexivity.
    + apply String.eqb_neq in E. rewrite <- IH. intuition congruence.
Qed.

Lemma dict_update_snoc d (e : PyDict V) (kv : string * V) :
  dict_update d (e ++ [kv]) = dict_set (fst kv) (snd kv) (dict_update d e).
Proof. unfold dict_update. rewrite fold_left_app. reflexivity. Qed.

Lemma dict_update_In d (e : PyDict V) (kv : string * V) :
  In kv (dict_update d e) -> In kv d \/ In kv e.
Proof.
  induction e as [|c e IH] using rev_ind; [left; assumption|].
  rewrite dict_update_snoc. intros H.
  apply dict_set_In in H. destruct H as [H|H].
  - right. apply in_or_app. right. left. destruct c. simpl in H. congruence.
  - destruct (IH H) as [H'|H']; [left; assumption|].
    right. apply in_or_app. left. assumption.
Qed.

Lemma dict_update_keys d (e : PyDict V) (x : string) :
  In x (dict_keys (dict_update d e)) <-> In x (dict_keys d) \/ In x (map fst e).
Proof.
  induction e as [|c e IH] using rev_ind; [simpl; tauto|].
  rewrite dict_update_snoc, dict_keys_set, IH, map_app, in_app_iff.
  simpl. intuition congruence.
Qed.
End DictFacts.

(** ** Folding contributions into a dictionary *)

Section Contributions.
Variables (E V : Type) (f : E -> option (string * V)).
Local Abbreviation absorb := (absorb f).
Local Abbreviation absorb_all := (absorb_all f).
Local Abbreviation silent := (silent f).
Local Abbreviation hits := (hits f).

Lemma hits_false k e : hits k e = false -> forall v, f e <> Some (k, v).
Proof.
  unfold hits. intros H v Hf. rewrite Hf, String.eqb_refl in H. discriminate.
Qed.

Lemma hits_true k e : hits k e = true -> exists v, f e = Some (k, v).
Proof.
  unfold hits. destruct (f e) as [[k' v]|]; [|discriminate].
  intros H. apply String.eqb_eq in H. subst. exists v. reflexivity.
Qed.

Lemma absorb_all_app d l1 l2 :
  absorb_all d (l1 ++ l2) = absorb_all (absorb_all d l1) l2.
Proof. apply fold_left_app. Qed.

Lemma absorb_all_silent k l : forall d,
  silent k l -> dict_get k (absorb_all d l) = dict_get k d.
Proof.
  induction l as [|e l IH]; intros d Hs; [reflexivity|].
  simpl. rewrite IH.
  - unfold absorb. destruct (f e) as [[k' v]|] eqn:Hf; [|reflexivity].
    apply dict_get_set_other. intros ->. exact (Hs e v (or_introl eq_refl) Hf).
  - intros e' v' Hin. apply Hs. right. exact Hin.
Qed.

Lemma absorb_all_last k v d pre e post :
  f e = Some (k, v) -> silent k post ->
  dict_get k (absorb_all d (pre ++ e :: post)) = Some v.
Proof.
  intros Hf Hs. rewrite absorb_all_app. simpl.
  rewrite absorb_all_silent by assumption.
  unfold absorb. rewrite Hf. apply dict_get_set_same.
Qed.

Lemma last_hit k l :
  silent k l \/
  exists pre e v post, l = pre ++ e :: post /\ f e = Some (k, v) /\ silent k post.
Proof.
  induction l as [|e l IH].
  - left. intros e v [].
  - destruct IH as [Hs|(pre & e' & v & post & -> & Hf & Hs)].
    + destruct (hits k e) eqn:Hh.
      * right. destruct (hits_true _ _ Hh) as [v Hv].
        exists [], e, v, l. auto.
      * left. intros e' v [<-|Hin]; [apply hits_false; assumption|].
        apply Hs. assumption.
    + right. exists (e :: pre), e', v, post. auto.
Qed.

(** The value under a key is the one given by the last contribution to
    that key. *)
Lemma absorb_all_get k v l :
  dict_get k (absorb_all [] l) = Some v <->
  exists pre e post, l = pre ++ e :: post /\ f e = Some (k, v) /\ silent k post.
Proof.
  split.
  - intros H. destruct (last_hit k l) as [Hs|(pre & e & v' & post & -> & Hf & Hs)].
    + rewrite absorb_all_silent in H by assumption. discriminate.
    + rewrite (absorb_all_last [] pre Hf Hs) in H.
      exists pre, e, post. repeat split; try congruence; assumption.
  - intros (pre & e & post & -> & Hf & Hs). apply absorb_all_last; assumption.
Qed.

Lemma absorb_all_keys k l :
  In k (dict_keys (absorb_all [] l)) <-> exists e v, In e l /\ f e = Some (k, v).
Proof.
  rewrite dict_get_keys. split.
  - intros [v H]. apply absorb_all_get in H.
    destruct H as (pre & e & post & -> & Hf & _).
    exists e, v. split; [apply in_or_app; right; left; reflexivity | exact Hf].
  - intros (e & v & Hin & Hf).
    destruct (last_hit k l) as [Hs|(pre & e' & v' & post & -> & Hf' & Hs)].
    + exfalso. exact (Hs e v Hin Hf).
    + exists v'. apply absorb_all_last; assumption.
Qed.

Lemma absorb_all_NoDup l : forall d,
  NoDup (dict_keys d) -> NoDup (dict_keys (absorb_all d l)).
Proof.
  induction l as [|e l IH]; intros d Hd; [exact Hd|].
  simpl. apply IH. unfold absorb.
  destruct (f e) as [[k v]|]; [apply dict_set_NoDup|]; assumption.
Qed.

Lemma absorb_all_In l (kv : string * V) : forall d,
  In kv (absorb_all d l) -> In kv d \/ exists e, In e l /\ f e = Some kv.
Proof.
  induction l as [|e l IH]; intros d H; [left; exact H|].
  simpl in H. destruct (IH _ H) as [H'|(e' & Hin & Hf)].
  - unfold absorb in H'. destruct (f e) as [[k v]|] eqn:Hf.
    + apply dict_set_In in H'. destruct H' as [->|H']; [|left; exact H'].
      right. exists e. split; [left; reflexivity | exact Hf].
    + left. exact H'.
  - right. exists e'. split; [right; exact Hin | exact Hf].
Qed.
End Contributions.

(* ================================================================== *)
(** * The scan as a fold over the rows read *)
(* ================================================================== *)

Lemma existsb_map (A B : Type) (g : A -> B) (p : B -> bool) (l : list A) :
  existsb p (map g l) = existsb (fun a => p (g a)) l.
Proof. induction l as [|a l IH]; simpl; [reflexivity | rewrite IH; reflexivity]. Qed.

Lemma in_id_column_present (md : DataFrame) (sample : string) (b : bool) :
  in_id_column md sample = Some b -> b = id_present md sample.
Proof.
  unfold in_id_column, id_column, id_present.
  destruct (columns md) as [|c others]; simpl; [discriminate|].
  destruct (existsb (String.eqb c) others); simpl; [discriminate|].
  rewrite existsb_map. congruence.
Qed.

Lemma id_present_In (md : DataFrame) (sample : string) :
  id_present md sample = true <->
  In (CStr sample) (map (fun r => hd NaN r) (rows md)).
Proof.
  unfold id_present. rewrite existsb_exists, in_map_iff. split.
  - intros (r & Hin & He). exists r. split; [|exact Hin].
    destruct (hd NaN r); simpl in He; try discriminate.
    apply String.eqb_eq in He. congruence.
  - intros (r & He & Hin). exists r. split; [exact Hin|].
    rewrite He. simpl. apply String.eqb_refl.
Qed.

Lemma id_present_find (md : DataFrame) (sample : string) :
  id_present md sample = true ->
  exists m, sample_metadata_of md sample = Some m.
Proof.
  unfold id_present, sample_metadata_of. intros H.
  apply existsb_exists in H. destruct H as (r & Hin & He).
  destruct (find (fun r => cell_eq_str (hd NaN r) sample) (rows md)) eqn:F.
  - simpl. eexists. reflexivity.
  - exfalso. pose proof (find_none _ _ F r Hin) as Hn. simpl in Hn. congruence.
Qed.

Lemma process_line_spec md read_count file_name st line st' :
  process_line md read_count file_name st line = Some st' ->
  st' = (absorb (contribution md read_count) (fst st) (file_name, line),
         snd st ++ [extracted_part file_name]).
Proof.
  unfold process_line, absorb, contribution. simpl.
  destruct (parse_row line) as [r|]; simpl; [|discriminate].
  destruct (rank_and_count_ok read_count r); simpl.
  - destruct (in_id_column md (extracted_part file_name)) as [b|] eqn:Hb;
      simpl; [|discriminate].
    apply in_id_column_present in Hb. rewrite <- Hb.
    destruct b; simpl.
    + destruct (sample_metadata_of md (extracted_part file_name));
        simpl; [|discriminate].
      intros H. injection H as <-. reflexivity.
    + intros H. injection H as <-. reflexivity.
  - intros H. injection H as <-. reflexivity.
Qed.

Lemma scan_lines_spec md read_count file_name lines : forall st st',
  scan_lines md read_count file_name st lines = Some st' ->
  st' = (absorb_all (contribution md read_count) (fst st)
           (map (pair file_name) lines),
         snd st ++ map (fun e => extracted_part (fst e))
                       (map (pair file_name) lines)).
Proof.
  induction lines as [|line rest IH]; simpl; intros st st' H.
  - injection H as <-. rewrite app_nil_r. destruct st; reflexivity.
  - destruct (process_line md read_count file_name st line) as [st1|] eqn:E;
      simpl in H; [|discriminate].
    apply process_line_spec in E. apply IH in H. subst st1. simpl in H.
    rewrite <- app_assoc in H. exact H.
Qed.

Lemma rows_read_cons_report w kraken_dir file_name rest text :
  is_report file_name = true ->
  read_text w (os_path_join kraken_dir file_name) = Some text ->
  rows_read w kraken_dir (file_name :: rest) =
  map (pair file_name) (file_lines text) ++ rows_read w kraken_dir rest.
Proof. intros H1 H2. unfold rows_read. simpl. rewrite H1, H2. reflexivity. Qed.

Lemma rows_read_cons_other w kraken_dir file_name rest :
  is_report file_name = false ->
  rows_read w kraken_dir (file_name :: rest) = rows_read w kraken_dir rest.
Proof. intros H. unfold rows_read. simpl. rewrite H. reflexivity. Qed.

Lemma scan_files_spec w md read_count kraken_dir names : forall st st',
  scan_files w md read_count kraken_dir st names = Some st' ->
  st' = (absorb_all (contribution md read_count) (fst st)
           (rows_read w kraken_dir names),
         snd st ++ map (fun e => extracted_part (fst e))
                       (rows_read w kraken_dir names)).
Proof.
  induction names as [|file_name rest IH]; intros st st' H; simpl in H.
  - injection H as <-. simpl. rewrite app_nil_r. destruct st; reflexivity.
  - fold (is_report file_name) in H.
    destruct (is_report file_name) eqn:R.
    + destruct (read_text w (os_path_join kraken_dir file_name)) as [text|] eqn:T;
        simpl in H; [|discriminate].
      destruct (scan_lines md read_count file_name st (file_lines text))
        as [st1|] eqn:L; simpl in H; [|discriminate].
      apply scan_lines_spec in L. apply IH in H. subst st1. simpl in H.
      rewrite (@rows_read_cons_report w kraken_dir file_name rest text R T).
      unfold absorb_all in *. rewrite fold_left_app, map_app, app_assoc.
      exact H.
    + rewrite (@rows_read_cons_other w kraken_dir file_name rest R). apply IH. exact H.
Qed.

(** A scan that completes has opened every report of the listing. *)
Lemma scan_files_opens w md read_count kraken_dir names : forall st st',
  scan_files w md read_count kraken_dir st names = Some st' ->
  forall file_name, In file_name names -> is_report file_name = true ->
  exists text, read_text w (os_path_join kraken_dir file_name) = Some text.
Proof.
  induction names as [|n rest IH]; simpl; intros st st' H fn Hin Hr; [contradiction|].
  fold (is_report n) in H.
  destruct (is_report n) eqn:R.
  - destruct (read_text w (os_path_join kraken_dir n)) as [text|] eqn:T;
      simpl in H; [|discriminate].
    destruct (scan_lines md read_count n st (file_lines text)) as [st1|];
      simpl in H; [|discriminate].
    destruct Hin as [->|Hin]; [exists text; exact T | eauto].
  - destruct Hin as [->|Hin]; [congruence | eauto].
Qed.

(** Entries that are not reports play no part in the scan. *)
Lemma scan_files_filter w md read_count kraken_dir names : forall st,
  scan_files w md read_count kraken_dir st names =
  scan_files w md read_count kraken_dir st (filter is_report names).
Proof.
  induction names as [|n rest IH]; simpl; intros st; [reflexivity|].
  fold (is_report n). destruct (is_report n) eqn:R; simpl.
  - fold (is_report n). rewrite R.
    destruct (read_text w (os_path_join kraken_dir n)); simpl; [|reflexivity].
    destruct (scan_lines md read_count n st (file_lines s)); simpl;
      [apply IH | reflexivity].
  - apply IH.
Qed.

Lemma scan_reports_spec w md read_count kraken_dir st :
  scan_reports w md read_count kraken_dir = Some st ->
  exists names,
    listdir w kraken_dir = Some names /\
    st = (absorb_all (contribution md read_count) []
            (rows_read w kraken_dir names),
          map (fun e => extracted_part (fst e)) (rows_read w kraken_dir names)).
Proof.
  unfold scan_reports. destruct (listdir w kraken_dir) as [names|]; simpl;
    [|discriminate].
  intros H. exists names. split; [reflexivity|].
  apply scan_files_spec in H. exact H.
Qed.

(* ================================================================== *)
(** * Which rows give a record *)
(* ================================================================== *)

Lemma rank_and_count_ok_iff (read_count : Z) (r : ReportRow) :
  rank_and_count_ok read_count r = true <->
  rank_code r = "S" /\ (read_count <= nr_frag_direct_at_taxon r)%Z.
Proof.
  unfold rank_and_count_ok.
  rewrite andb_true_iff, String.eqb_eq, Z.leb_le. tauto.
Qed.

Lemma contribution_Some_iff md read_count file_name line k rec :
  contribution md read_count (file_name, line) = Some (k, rec) <->
  exists r m,
    parse_row line = Some r /\
    rank_and_count_ok read_count r = true /\
    id_present md (extracted_part file_name) = true /\
    sample_metadata_of md (extracted_part file_name) = Some m /\
    k = (extracted_part file_name ++ ncbi_ID r)%string /\
    rec = build_record r (extracted_part file_name) m.
Proof.
  unfold contribution, sampleandtaxonid. simpl. split.
  - destruct (parse_row line) as [r|]; simpl; [|discriminate].
    destruct (rank_and_count_ok read_count r) eqn:Hr; simpl; [|discriminate].
    destruct (id_present md (extracted_part file_name)) eqn:Hp; simpl;
      [|discriminate].
    destruct (sample_metadata_of md (extracted_part file_name)) as [m|];
      simpl; [|discriminate].
    intros H. injection H as <- <-. exists r, m. auto 6.
  - intros (r & m & Hp & Hr & Hi & Hm & -> & ->).
    rewrite Hp. simpl. rewrite Hr, Hi. simpl. rewrite Hm. reflexivity.
Qed.

(** Nothing in [post] gives a record under [k]: every later row with that
    key fails the rank, the threshold or the metadata test. *)
Lemma silent_iff md read_count k (post : list (string * string)) :
  silent (contribution md read_count) k post <->
  forall file_name line r,
    In (file_name, line) post -> parse_row line = Some r ->
    (extracted_part file_name ++ ncbi_ID r)%string = k ->
    rank_and_count_ok read_count r
      && id_present md (extracted_part file_name) = false.
Proof.
  unfold silent. split.
  - intros Hs fn line r Hin Hp Hk.
    destruct (rank_and_count_ok read_count r
              && id_present md (extracted_part fn)) eqn:Hsel; [|reflexivity].
    exfalso. apply andb_true_iff in Hsel. destruct Hsel as [Hr Hi].
    destruct (id_present_find _ _ Hi) as [m Hm].
    apply (Hs (fn, line) (build_record r (extracted_part fn) m) Hin).
    apply contribution_Some_iff. exists r, m. auto 6.
  - intros H [fn line] v Hin Hc.
    apply contribution_Some_iff in Hc.
    destruct Hc as (r & m & Hp & Hr & Hi & _ & Hk & _).
    specialize (H fn line r Hin Hp (eq_sym Hk)).
    rewrite Hr, Hi in H. discriminate.
Qed.

Lemma dict_update_get_other (V : Type) (d e : PyDict V) (k : string) :
  ~ In k (map fst e) -> dict_get k (dict_update d e) = dict_get k d.
Proof.
  induction e as [|c e IH] using rev_ind; intros Hn; [reflexivity|].
  rewrite dict_update_snoc. rewrite map_app, in_app_iff in Hn. simpl in Hn.
  rewrite dict_get_set_other by (intros ->; tauto).
  apply IH. tauto.
Qed.

Lemma row_items_keys (cols : list string) : forall row,
  map fst (row_items cols row) = cols.
Proof.
  induction cols as [|c cs IH]; intros row; simpl; [reflexivity|].
  rewrite IH. reflexivity.
Qed.

Lemma sample_metadata_keys md sample m (k : string) :
  sample_metadata_of md sample = Some m ->
  (In k (dict_keys m) <-> In k (columns md)).
Proof.
  unfold sample_metadata_of.
  destruct (find _ (rows md)) as [r|]; simpl; [|discriminate].
  intros H. injection H as <-.
  rewrite dict_update_keys, row_items_keys. simpl. tauto.
Qed.

(** A fixed field that is not the label of a metadata column holds the
    value taken from the report row. *)
Lemma build_record_fixed md r sample m (h : string) :
  sample_metadata_of md sample = Some m ->
  ~ In h (columns md) ->
  dict_get h (build_record r sample m) = dict_get h (fixed_fields r sample).
Proof.
  intros Hm Hn. unfold build_record. apply dict_update_get_other.
  intros Hin. apply Hn. apply (sample_metadata_keys _ _ h Hm). exact Hin.
Qed.

(* ================================================================== *)
(** * The aggregated records *)
(* ================================================================== *)

Lemma selected_iff md read_count file_name r :
  selected md read_count file_name r <->
  rank_and_count_ok read_count r
    && id_present md (extracted_part file_name) = true.
Proof.
  unfold selected.
  rewrite andb_true_iff, rank_and_count_ok_iff, id_present_In. tauto.
Qed.

(* ================================================================== *)
(** * Rendering the merged table *)
(* ================================================================== *)

Lemma string_app_assoc (a b c : string) :
  ((a ++ b) ++ c = a ++ (b ++ c))%string.
Proof. induction a as [|x a IH]; simpl; [reflexivity | rewrite IH; reflexivity]. Qed.

Lemma string_app_nil_r (a : string) : (a ++ EmptyString)%string = a.
Proof. induction a as [|x a IH]; simpl; [reflexivity | rewrite IH; reflexivity]. Qed.

Lemma omap_all_length (A B : Type) (f : A -> option B) (l : list A) :
  forall bs, omap_all f l = Some bs -> length bs = length l.
Proof.
  induction l as [|a l IH]; simpl; intros bs H.
  - injection H as <-. reflexivity.
  - destruct (f a) as [b|]; simpl in H; [|discriminate].
    destruct (omap_all f l) as [bs'|]; simpl in H; [|discriminate].
    injection H as <-. simpl. rewrite (IH bs' eq_refl). reflexivity.
Qed.

Lemma omap_all_Forall (A B : Type) (f : A -> option B) (P : B -> Prop)
    (l : list A) :
  (forall a b, In a l -> f a = Some b -> P b) ->
  forall bs, omap_all f l = Some bs -> Forall P bs.
Proof.
  induction l as [|a l IH]; simpl; intros HP bs H.
  - injection H as <-. constructor.
  - destruct (f a) as [b|] eqn:Fa; simpl in H; [|discriminate].
    destruct (omap_all f l) as [bs'|]; simpl in H; [|discriminate].
    injection H as <-. constructor; [eauto | apply IH; eauto].
Qed.

Lemma omap_all_total (A B : Type) (f : A -> option B) (l : list A) :
  (forall a, In a l -> exists b, f a = Some b) ->
  exists bs, omap_all f l = Some bs.
Proof.
  induction l as [|a l IH]; simpl; intros H; [eexists; reflexivity|].
  destruct (H a (or_introl eq_refl)) as [b ->].
  destruct IH as [bs ->]; [intros; apply H; right; assumption|].
  simpl. eexists. reflexivity.
Qed.

Lemma render_row_total hs data :
  covers hs data -> exists row, render_row hs data = Some row.
Proof.
  intros Hc. unfold render_row.
  destruct (omap_all_total
              (fun col => option_map cell_str (dict_get col data)) hs)
    as [vals Hv].
  - intros col Hin. apply Hc in Hin. apply dict_get_keys in Hin.
    destruct Hin as [v ->]. eexists. reflexivity.
  - rewrite Hv. simpl. eexists. reflexivity.
Qed.


Lemma write_rows_spec hs items : forall out content ok,
  write_rows hs items out = (content, ok) ->
  exists rows,
    content = (out ++ rows_text rows)%string /\
    (forall row, In row rows ->
       exists kv, In kv items /\ render_row hs (snd kv) = Some row) /\
    (ok = true -> omap_all (fun kv => render_row hs (snd kv)) items = Some rows).
Proof.
  induction items as [|[k data] rest IH]; simpl; intros out content ok H.
  - injection H as <- <-. exists []. simpl. rewrite string_app_nil_r.
    split; [reflexivity|]. split; [intros ? [] | reflexivity].
  - destruct (render_row hs data) as [row|] eqn:R.
    + apply IH in H. destruct H as (rows & -> & Hin & Hok).
      exists (row :: rows). simpl. split.
      * rewrite !string_app_assoc. reflexivity.
      * split.
        -- intros row' [<-|Hr]; [exists (k, data); auto|].
           destruct (Hin _ Hr) as (kv & ? & ?). exists kv. auto.
        -- intros Ht. rewrite (Hok Ht). reflexivity.
    + injection H as <- <-. exists []. simpl. rewrite string_app_nil_r.
      split; [reflexivity|]. split; [intros ? [] | discriminate].
Qed.

Lemma write_rows_ok hs items : forall out,
  (forall kv, In kv items -> covers hs (snd kv)) ->
  exists content, write_rows hs items out = (content, true).
Proof.
  induction items as [|[k data] rest IH]; simpl; intros out Hc.
  - eexists. reflexivity.
  - destruct (render_row_total (Hc (k, data) (or_introl eq_refl))) as [row R].
    simpl in R. rewrite R. apply IH. intros kv Hin. apply Hc. right. exact Hin.
Qed.

(** ** Records built by the scan *)

Lemma str_of_uint_tab_free (d : Decimal.uint) :
  char_free TAB (NilEmpty.string_of_uint d) = true.
Proof. induction d; simpl; try reflexivity; exact IHd. Qed.

Lemma str_of_int_tab_free (n : Z) : char_free TAB (str_of_int n) = true.
Proof.
  unfold str_of_int, NilZero.string_of_int, NilZero.string_of_uint.
  destruct (Z.to_int n) as [d|d]; destruct d; try reflexivity;
    match goal with
    | |- char_free TAB (String "-" ?s) = true =>
        change (char_free TAB s = true)
    | _ => idtac
    end; apply str_of_uint_tab_free.
Qed.

Lemma row_items_values (cols : list string) : forall row k v,
  In (k, v) (row_items cols row) -> v = NaN \/ In v row.
Proof.
  induction cols as [|c cs IH]; simpl; intros row k v H; [contradiction|].
  destruct H as [H|H].
  - injection H as _ <-. destruct row; simpl; auto.
  - destruct (IH _ _ _ H) as [Hn|Hin]; [left; exact Hn|].
    right. destruct row; simpl in *; auto.
Qed.

Lemma sample_metadata_values md sample m k v :
  sample_metadata_of md sample = Some m -> In (k, v) m ->
  v = NaN \/ exists row, In row (rows md) /\ In v row.
Proof.
  unfold sample_metadata_of.
  destruct (find _ (rows md)) as [row|] eqn:F; simpl; [|discriminate].
  intros H Hin. injection H as <-.
  apply dict_update_In in Hin. destruct Hin as [[]|Hin].
  apply row_items_values in Hin. destruct Hin as [Hn|Hin]; [left; exact Hn|].
  right. exists row. split; [|exact Hin]. apply (find_some _ _ F).
Qed.

Lemma parse_row_tab_free line r :
  parse_row line = Some r ->
  char_free TAB (perc_frag_cover r) = true /\
  char_free TAB (nr_frag_cover r) = true /\
  char_free TAB (rank_code r) = true /\
  char_free TAB (ncbi_ID r) = true /\
  char_free TAB (scientific_name r) = true.
Proof.
  unfold parse_row. pose proof (split_on_free_pieces TAB (strip line)) as Hall.
  destruct (split_on TAB (strip line)) as [|f0 [|f1 [|f2 [|f3 [|f4 [|f5 rest]]]]]];
    try discriminate.
  destruct (py_int f2) as [n|]; simpl; [|discriminate].
  intros H. injection H as <-. simpl.
  repeat match goal with
         | H : Forall _ (_ :: _) |- _ => inversion H; clear H; subst
         end.
  auto.
Qed.

Lemma build_record_tab_free line r sample m :
  parse_row line = Some r ->
  char_free TAB sample = true ->
  (forall k v, In (k, v) m -> char_free TAB (cell_str v) = true) ->
  tab_free_record (build_record r sample m).
Proof.
  intros Hp Hs Hm k v Hin. unfold build_record in Hin.
  apply dict_update_In in Hin. destruct Hin as [Hin|Hin]; [|eauto].
  destruct (parse_row_tab_free _ Hp) as (H0 & H1 & H3 & H4 & H5).
  unfold fixed_fields in Hin. simpl in Hin.
  repeat (destruct Hin as [Hin|Hin];
          [injection Hin as _ <-; simpl;
           solve [assumption | apply str_of_int_tab_free]|]).
  contradiction.
Qed.

Lemma build_record_covers md r sample m :
  sample_metadata_of md sample = Some m ->
  covers (headers md) (build_record r sample m).
Proof.
  intros Hm col Hin. unfold build_record. apply dict_update_keys.
  unfold headers in Hin. apply in_app_or in Hin. destruct Hin as [Hin|Hin].
  - left. exact Hin.
  - right. apply (sample_metadata_keys _ _ col Hm).
    destruct (columns md); simpl in Hin; [contradiction | right; exact Hin].
Qed.

Lemma rows_read_names w kraken_dir names file_name line :
  In (file_name, line) (rows_read w kraken_dir names) ->
  In file_name names /\ is_report file_name = true.
Proof.
  unfold rows_read. rewrite in_flat_map. intros (n & Hn & Hin).
  destruct (is_report n) eqn:R; [|contradiction].
  destruct (read_text w (os_path_join kraken_dir n)); [|contradiction].
  apply in_map_iff in Hin. destruct Hin as (l & Hl & _).
  injection Hl as <- _. auto.
Qed.

(** Every record of a completed scan comes from a row that was read. *)
Lemma scan_reports_records w md read_count kraken_dir names agg ids k rec :
  listdir w kraken_dir = Some names ->
  scan_reports w md read_count kraken_dir = Some (agg, ids) ->
  In (k, rec) agg ->
  exists file_name line,
    In (file_name, line) (rows_read w kraken_dir names) /\
    contribution md read_count (file_name, line) = Some (k, rec).
Proof.
  intros Hl Hs Hin. apply scan_reports_spec in Hs.
  destruct Hs as (names' & Hl' & Hst).
  assert (names' = names) by congruence. subst names'.
  injection Hst as -> _.
  apply absorb_all_In in Hin. destruct Hin as [[]|([fn line] & He & Hc)].
  exists fn, line. auto.
Qed.

(* ================================================================== *)
(** * The whole aggregation *)
(* ================================================================== *)

Lemma gather_spec w kraken_dir metadata_file sample_id_df read_count md st :
  gather w kraken_dir metadata_file sample_id_df read_count = Some (md, st) ->
  resolve_metadata w metadata_file sample_id_df = Some md /\
  columns md <> [] /\
  scan_reports w md read_count kraken_dir = Some st.
Proof.
  unfold gather.
  destruct (resolve_metadata w metadata_file sample_id_df) as [md'|]; simpl;
    [|discriminate].
  unfold sample_id_col. destruct (columns md') as [|c cs] eqn:C; simpl;
    [discriminate|].
  destruct (scan_reports w md' read_count kraken_dir) as [st'|] eqn:S; simpl;
    [|discriminate].
  intros H. injection H as <- <-. rewrite C. repeat split; [discriminate | exact S].
Qed.

(** What the function writes, whatever it returns. *)
Lemma aggregate_events w kraken_dir metadata_file sample_id_df read_count ev :
  In ev (snd (aggregate_kraken_results w kraken_dir metadata_file
                sample_id_df read_count)) ->
  exists md agg ids content ok,
    gather w kraken_dir metadata_file sample_id_df read_count
    = Some (md, (agg, ids)) /\
    write_rows (headers md) agg (header_line md) = (content, ok) /\
    (ev = WriteFile (os_path_join kraken_dir MERGED_NAME) content \/
     ev = WriteCsv (os_path_join kraken_dir SAMPLE_IDS_NAME) "Sample_IDs" ids).
Proof.
  unfold aggregate_kraken_results.
  destruct (gather w kraken_dir metadata_file sample_id_df read_count)
    as [[md [agg ids]]|]; [|intros []].
  destruct (can_write w (os_path_join kraken_dir MERGED_NAME)); [|intros []].
  destruct (write_rows (headers md) agg (header_line md)) as [content ok] eqn:W.
  intros H. exists md, agg, ids, content, ok.
  split; [reflexivity|]. split; [exact W|].
  destruct ok.
  - destruct (can_write w (os_path_join kraken_dir SAMPLE_IDS_NAME));
      simpl in H; intuition.
  - simpl in H. intuition.
Qed.

(** C5: the list written to [sample_ids.csv], under the column
    [Sample_IDs], holds the sample identifier of its file once for every
    line of every report of the directory, in the order read, whether or
    not the line gave a record; nothing is removed from it. *)
Theorem sample_ids_one_per_row :
  forall (w : World) (kraken_dir : string) (metadata_file : option string)
         (sample_id_df : option DataFrame) (read_count : Z)
         (path column : string) (values : list string),
    In (WriteCsv path column values)
       (snd (aggregate_kraken_results w kraken_dir metadata_file
               sample_id_df read_count)) ->
    exists names,
      listdir w kraken_dir = Some names /\
      path = os_path_join kraken_dir "sample_ids.csv" /\
      column = "Sample_IDs" /\
      (forall file_name,
          In file_name names -> endswith file_name "_report.txt" = true ->
          exists text,
            read_text w (os_path_join kraken_dir file_name) = Some text) /\
      values = map (fun e => extracted_part (fst e))
                   (rows_read w kraken_dir names).
Proof.
  intros w kraken_dir metadata_file sample_id_df read_count path column values H.
  apply aggregate_events in H.
  destruct H as (md & agg & ids & content & ok & Hg & _ & [H|H]);
    [discriminate|].
  injection H as -> -> ->.
  apply gather_spec in Hg. destruct Hg as (_ & _ & Hs).
  unfold scan_reports in Hs.
  destruct (listdir w kraken_dir) as [names|]; simpl in Hs; [|discriminate].
  exists names. split; [reflexivity|]. split; [reflexivity|].
  split; [reflexivity|]. split.
  - intros fn Hin Hr. exact (scan_files_opens _ _ _ _ _ _ Hs fn Hin Hr).
  - apply scan_files_spec in Hs. injection Hs as _ ->. reflexivity.
Qed.

Lemma sample_ids_one_per_row_witness :
  exists names,
    listdir sample_world "k" = Some names /\
    "k/sample_ids.csv" = os_path_join "k" "sample_ids.csv" /\
    "Sample_IDs" = "Sample_IDs" /\
    (forall file_name,
        In file_name names -> endswith file_name "_report.txt" = true ->
        exists text,
          read_text sample_world (os_path_join "k" file_name) = Some text) /\
    ["s_1"; "s_1"] = map (fun e => extracted_part (fst e))
                         (rows_read sample_world "k" names).
Proof.
  apply (sample_ids_one_per_row sample_world "k" None (Some sample_metadata) 30).
  vm_compute. right. left. reflexivity.
Defined.

(** C6: whenever the merged table is written, its first line is the six
    report field names, then [SampleID], then the metadata column labels
    from the second on, in their order, with TABs between them. *)
Theorem merged_header :
  forall (w : World) (kraken_dir : string) (metadata_file : option string)
         (sample_id_df : option DataFrame) (read_count : Z)
         (path content : string),
    In (WriteFile path content)
       (snd (aggregate_kraken_results w kraken_dir metadata_file
               sample_id_df read_count)) ->
    exists md body,
      resolve_metadata w metadata_file sample_id_df = Some md /\
      path = os_path_join kraken_dir "merged_kraken1.tsv" /\
      content
      = (join TABS
           (["Perc_frag_cover"; "Nr_frag_cover"; "Nr_frag_direct_at_taxon";
             "Rank_code"; "NCBI_ID"; "Scientific_name"; "SampleID"]
            ++ tl (columns md))
         ++ NLS ++ body)%string.
Proof.
  intros w kraken_dir metadata_file sample_id_df read_count path content H.
  apply aggregate_events in H.
  destruct H as (md & agg & ids & content' & ok & Hg & Hw & [H|H]);
    [|discriminate].
  injection H as -> ->.
  apply gather_spec in Hg. destruct Hg as (Hmd & _ & _).
  apply write_rows_spec in Hw. destruct Hw as (rows & -> & _).
  exists md, (rows_text rows). split; [exact Hmd|]. split; [reflexivity|].
  unfold header_line, headers, FIXED_HEADERS.
  rewrite string_app_assoc. reflexivity.
Qed.

Lemma merged_header_witness :
  exists md body,
    resolve_metadata sample_world None (Some sample_metadata) = Some md /\
    "k/merged_kraken1.tsv" = os_path_join "k" "merged_kraken1.tsv" /\
    (header_line sample_metadata)
    = (join TABS
         (["Perc_frag_cover"; "Nr_frag_cover"; "Nr_frag_direct_at_taxon";
           "Rank_code"; "NCBI_ID"; "Scientific_name"; "SampleID"]
          ++ tl (columns md))
       ++ NLS ++ body)%string.
Proof.
  apply (merged_header sample_world "k" None (Some sample_metadata) 100).
  vm_compute. left. reflexivity.
Defined.

(** ** A scan in which no row gives a record *)







(* ================================================================== *)
(** * process_sample *)
(* ================================================================== *)

Lemma os_path_join_plain (a b : string) :
  a <> EmptyString -> endswith a "/" = false -> startswith_char b SLASH = false ->
  os_path_join a b = (a ++ "/" ++ b)%string.
Proof.
  intros Ha He Hb. unfold os_path_join. rewrite Hb, He.
  apply String.eqb_neq in Ha. rewrite Ha. reflexivity.
Qed.

(** C8: with [use_precomputed_reports] set, the call returns the joined
    path of the output directory and [<base_name>_report.txt] when that
    file exists, and nothing else happens: no tool is called, nothing is
    printed or written.  When the file does not exist the call returns
    [None]; it prints one line and calls and writes nothing.  For a
    directory that is not empty and does not end in a slash, and a base
    name that does not start with one, the path is the directory, a slash
    and the file name. *)
Theorem precomputed_report :
  forall (w : World)
         (forward reverse base_name bowtie2_index kraken_db output_dir : string)
         (threads : Z) (run_bowtie : bool),
    process_sample w forward reverse base_name bowtie2_index kraken_db
      output_dir threads run_bowtie true
    = (if path_exists w (os_path_join output_dir (base_name ++ "_report.txt"))
       then (Returns (Some (os_path_join output_dir
                              (base_name ++ "_report.txt"))), [])
       else (Returns None,
             [Print ("Error processing sample " ++ base_name
                     ++ ": Precomputed Kraken2 report not found: "
                     ++ os_path_join output_dir (base_name ++ "_report.txt"))]))
    /\ (output_dir <> EmptyString -> endswith output_dir "/" = false ->
        startswith_char base_name SLASH = false ->
        os_path_join output_dir (base_name ++ "_report.txt")
        = (output_dir ++ "/" ++ base_name ++ "_report.txt")%string).
Proof.
  intros. split.
  - unfold process_sample, process_sample_body, precomputed_report_path,
      REPORT_SUFFIX. simpl negb.
    destruct (path_exists w (os_path_join output_dir
                               (base_name ++ "_report.txt"))); reflexivity.
  - intros Ha He Hb. apply os_path_join_plain; try assumption.
    destruct base_name; [reflexivity | exact Hb].
Qed.

Lemma precomputed_report_witness :
  process_sample sample_world "r1.fq" "r2.fq" "x" "idx" "db" "out" 4 true true
  = (Returns (Some "out/x_report.txt"), [])
  /\ os_path_join "out" ("x" ++ "_report.txt") = "out/x_report.txt".
Proof.
  split.
  - exact (proj1 (precomputed_report sample_world "r1.fq" "r2.fq" "x" "idx"
                    "db" "out" 4 true)).
  - apply (proj2 (precomputed_report sample_world "r1.fq" "r2.fq" "x" "idx"
                    "db" "out" 4 true)); [discriminate | reflexivity | reflexivity].
Defined.

(** An exception that leaves the body was raised by one of the steps. *)
Lemma body_raises_step w forward reverse base_name bowtie2_index kraken_db
    output_dir threads run_bowtie use_precomputed_reports e evs :
  process_sample_body w forward reverse base_name bowtie2_index kraken_db
    output_dir threads run_bowtie use_precomputed_reports = (Raises e, evs) ->
  step_raises w forward reverse base_name bowtie2_index kraken_db output_dir
    threads run_bowtie use_precomputed_reports e.
Proof.
  unfold process_sample_body. destruct use_precomputed_reports; simpl.
  - destruct (path_exists w (precomputed_report_path output_dir base_name))
      eqn:X; simpl; intros H; [discriminate|].
    injection H as <- _. constructor. exact X.
  - destruct (run_trimmomatic w forward reverse base_name output_dir threads)
      as [[tf tr]|e1] eqn:T.
    + destruct run_bowtie eqn:B.
      * destruct (run_bowtie2 w tf tr base_name bowtie2_index output_dir threads)
          as [[u1 u2]|e2] eqn:Bw.
        -- intros H. injection H as H _.
           eapply raise_kraken2; [exact T | simpl; exact Bw | exact H].
        -- intros H. injection H as <- _.
           eapply raise_bowtie2; [exact T | reflexivity | exact Bw].
      * intros H. injection H as H _.
        eapply raise_kraken2; [exact T | reflexivity | exact H].
    + intros H. injection H as <- _. apply raise_trimmomatic. exact T.
Qed.

(** A step that raises makes the body raise the same exception. *)
Lemma step_raises_body w forward reverse base_name bowtie2_index kraken_db
    output_dir threads run_bowtie use_precomputed_reports e :
  step_raises w forward reverse base_name bowtie2_index kraken_db output_dir
    threads run_bowtie use_precomputed_reports e ->
  exists evs,
    process_sample_body w forward reverse base_name bowtie2_index kraken_db
      output_dir threads run_bowtie use_precomputed_reports = (Raises e, evs).
Proof.
  intros H. unfold process_sample_body.
  destruct H as [X | e T | tf tr e T B Bw | tf tr u1 u2 e T Bw K]; simpl.
  - rewrite X. simpl. eexists. reflexivity.
  - rewrite T. eexists. reflexivity.
  - rewrite T. subst run_bowtie. rewrite Bw. eexists. reflexivity.
  - rewrite T. destruct run_bowtie.
    + rewrite Bw, K. eexists. reflexivity.
    + injection Bw as <- <-. rewrite K. eexists. reflexivity.
Qed.

(** C9 as stated fails.  With the first tool interrupted from the
    keyboard, the call raises: [KeyboardInterrupt] is not an [Exception]. *)
Lemma process_sample_interrupted :
  process_sample interrupted_world "r1.fq" "r2.fq" "x" "idx" "db" "out" 4
    true false
  = (Raises (PyBaseException "KeyboardInterrupt" ""),
     [CallTrimmomatic "r1.fq" "r2.fq" "x" "out" 4]).
Proof. reflexivity. Qed.

(** C9, amended: an exception raised by a step that is an instance of
    [Exception] is caught, printed with the sample identifier and its
    message, and turned into [None].  The call raises only what a tool
    raised that is not an [Exception]. *)
Theorem exceptions_caught :
  forall (w : World)
         (forward reverse base_name bowtie2_index kraken_db output_dir : string)
         (threads : Z) (run_bowtie use_precomputed_reports : bool),
    (forall e,
        step_raises w forward reverse base_name bowtie2_index kraken_db
          output_dir threads run_bowtie use_precomputed_reports e ->
        is_Exception e = true ->
        exists evs,
          process_sample w forward reverse base_name bowtie2_index kraken_db
            output_dir threads run_bowtie use_precomputed_reports
          = (Returns None,
             evs ++ [Print ("Error processing sample " ++ base_name ++ ": "
                            ++ exn_msg e)]))
    /\ (forall e evs,
          process_sample w forward reverse base_name bowtie2_index kraken_db
            output_dir threads run_bowtie use_precomputed_reports
          = (Raises e, evs) ->
          is_Exception e = false /\
          use_precomputed_reports = false /\
          step_raises w forward reverse base_name bowtie2_index kraken_db
            output_dir threads run_bowtie use_precomputed_reports e).
Proof.
  intros. split.
  - intros e Hs He. apply step_raises_body in Hs. destruct Hs as [evs Hb].
    exists evs. unfold process_sample. rewrite Hb, He. reflexivity.
  - intros e evs H. unfold process_sample in H.
    destruct (process_sample_body w forward reverse base_name bowtie2_index
                kraken_db output_dir threads run_bowtie
                use_precomputed_reports) as [[v|e'] evs'] eqn:Hb;
      [discriminate|].
    destruct (is_Exception e') eqn:He; [discriminate|].
    injection H as <- <-.
    apply body_raises_step in Hb. split; [exact He|]. split; [|exact Hb].
    destruct Hb; [discriminate He | reflexivity | reflexivity | reflexivity].
Qed.

Lemma exceptions_caught_witness :
  (exists evs,
      process_sample failing_world "r1.fq" "r2.fq" "x" "idx" "db" "out" 4
        true false
      = (Returns None,
         evs ++ [Print ("Error processing sample " ++ "x" ++ ": "
                        ++ "bowtie2 failed")]))
  /\ (is_Exception (PyBaseException "KeyboardInterrupt" "") = false /\
      false = false /\
      step_raises interrupted_world "r1.fq" "r2.fq" "x" "idx" "db" "out" 4
        true false (PyBaseException "KeyboardInterrupt" "")).
Proof.
  split.
  - apply (proj1 (exceptions_caught failing_world "r1.fq" "r2.fq" "x" "idx"
                    "db" "out" 4 true false)
             (PyException "CalledProcessError" "bowtie2 failed")).
    + eapply raise_bowtie2; reflexivity.
    + reflexivity.
  - apply (proj2 (exceptions_caught interrupted_world "r1.fq" "r2.fq" "x"
                    "idx" "db" "out" 4 true false)
             _ [CallTrimmomatic "r1.fq" "r2.fq" "x" "out" 4]).
    reflexivity.
Defined.

(* ================================================================== *)
(** * Worked examples *)
(* ================================================================== *)

(** Threshold 30: of the two rows of the sample report, the species row
    with 50 fragments is kept and the genus row is not; both add the
    sample identifier to the list. *)
Example two_rows_threshold_30 :
  aggregate_kraken_results sample_world "k" None (Some sample_metadata) 30
  = (Some "k/merged_kraken1.tsv",
     [WriteFile "k/merged_kraken1.tsv"
        (header_line sample_metadata
         ++ "12.5" ++ TABS ++ "100" ++ TABS ++ "50" ++ TABS ++ "S" ++ TABS
         ++ "9606" ++ TABS ++ "Homo sapiens" ++ TABS ++ "s_1" ++ TABS
         ++ "Lagos" ++ NLS);
      WriteCsv "k/sample_ids.csv" "Sample_IDs" ["s_1"; "s_1"]]).
Proof. vm_compute. reflexivity. Qed.

(** Two different samples and taxa under one key. *)
Example key_collision :
  forall r1 r2,
    ncbi_ID r1 = "23" -> ncbi_ID r2 = "3" ->
    sampleandtaxonid "sample1" r1 = sampleandtaxonid "sample12" r2.
Proof. intros r1 r2 H1 H2. unfold sampleandtaxonid. rewrite H1, H2. reflexivity. Qed.

(** The sample identifier keeps the underscores of the file name. *)
Example extracted_part_underscores :
  extracted_part "run_7_s_1_report.txt" = "run_7_s_1".
Proof. reflexivity. Qed.

Example py_int_examples :
  py_int " 50 " = Some 50%Z /\ py_int "1_000" = Some 1000%Z /\
  py_int "-5" = Some (-5)%Z /\ py_int "5.0" = None /\ py_int "" = None.
Proof. repeat split; reflexivity. Qed.

(** A line with fewer than six fields, or a count that is not an integer,
    stops the whole aggregation. *)
Example short_line_fails :
  parse_row ("a" ++ TABS ++ "b" ++ NLS) = None /\
  parse_row ("1" ++ TABS ++ "2" ++ TABS ++ "x" ++ TABS ++ "S" ++ TABS ++ "5"
             ++ TABS ++ "n" ++ NLS) = None.
Proof. split; reflexivity. Qed.

(* ================================================================== *)
(** * process_sample: the pipeline of the three tools *)
(* ================================================================== *)

(** X1: without precomputed reports, the call returns a path exactly when
    the three tools return, each fed by the one before it: the classifier
    reads the unmapped reads when [run_bowtie] is set and the trimmed reads
    otherwise, and the path returned is the classifier's own result.  The
    tools are then called once each, in that order, and nothing is
    printed. *)
Theorem pipeline_returns_classifier_report :
  forall (w : World)
         (forward reverse base_name bowtie2_index kraken_db output_dir : string)
         (threads : Z) (run_bowtie : bool) (p : string),
    fst (process_sample w forward reverse base_name bowtie2_index kraken_db
           output_dir threads run_bowtie false) = Returns (Some p)
    <->
    exists tf tr u1 u2,
      run_trimmomatic w forward reverse base_name output_dir threads
      = Returns (tf, tr) /\
      (if run_bowtie
       then run_bowtie2 w tf tr base_name bowtie2_index output_dir threads
       else Returns (tf, tr)) = Returns (u1, u2) /\
      run_kraken2 w u1 u2 base_name kraken_db output_dir threads = Returns p /\
      snd (process_sample w forward reverse base_name bowtie2_index kraken_db
             output_dir threads run_bowtie false)
      = CallTrimmomatic forward reverse base_name output_dir threads
        :: (if run_bowtie
            then [CallBowtie2 tf tr base_name bowtie2_index output_dir threads]
            else [])
        ++ [CallKraken2 u1 u2 base_name kraken_db output_dir threads].
Proof.
  intros. unfold process_sample, process_sample_body. simpl negb. cbv iota.
  destruct (run_trimmomatic w forward reverse base_name output_dir threads)
    as [[tf tr]|e1] eqn:T.
  - destruct run_bowtie.
    + destruct (run_bowtie2 w tf tr base_name bowtie2_index output_dir threads)
        as [[u1 u2]|e2] eqn:B.
      * destruct (run_kraken2 w u1 u2 base_name kraken_db output_dir threads)
          as [q|e3] eqn:K.
        -- simpl. split.
           ++ intros H. injection H as <-. exists tf, tr, u1, u2. auto.
           ++ intros (tf' & tr' & u1' & u2' & Ht & Hb & Hk & _).
              injection Ht as <- <-. rewrite B in Hb. injection Hb as <- <-.
              rewrite K in Hk. congruence.
        -- split.
           ++ destruct (is_Exception e3); simpl; discriminate.
           ++ intros (tf' & tr' & u1' & u2' & Ht & Hb & Hk & _).
              injection Ht as <- <-. rewrite B in Hb. injection Hb as <- <-.
              rewrite K in Hk. discriminate.
      * split.
        -- destruct (is_Exception e2); simpl; discriminate.
        -- intros (tf' & tr' & u1' & u2' & Ht & Hb & _).
           injection Ht as <- <-. rewrite B in Hb. discriminate.
    + destruct (run_kraken2 w tf tr base_name kraken_db output_dir threads)
        as [q|e3] eqn:K.
      * simpl. split.
        -- intros H. injection H as <-. exists tf, tr, tf, tr. auto.
        -- intros (tf' & tr' & u1' & u2' & Ht & Hb & Hk & _).
           injection Ht as <- <-. injection Hb as <- <-.
           rewrite K in Hk. congruence.
      * split.
        -- destruct (is_Exception e3); simpl; discriminate.
        -- intros (tf' & tr' & u1' & u2' & Ht & Hb & Hk & _).
           injection Ht as <- <-. injection Hb as <- <-.
           rewrite K in Hk. discriminate.
  - split.
    + destruct (is_Exception e1); simpl; discriminate.
    + intros (tf' & tr' & u1' & u2' & Ht & _). discriminate.
Qed.

Lemma pipeline_returns_classifier_report_witness :
  fst (process_sample sample_world "r1.fq" "r2.fq" "x" "idx" "db" "out" 4
         true false) = Returns (Some "out/x_report.txt").
Proof.
  apply (proj2 (pipeline_returns_classifier_report sample_world "r1.fq"
                  "r2.fq" "x" "idx" "db" "out" 4 true "out/x_report.txt")).
  exists "r1.fq.trimmed", "r2.fq.trimmed",
         "r1.fq.trimmed.unmapped", "r2.fq.trimmed.unmapped".
  repeat split.
Defined.

(** X2: a tool is never called after an earlier one raised: when the
    trimmer raises, neither the aligner nor the classifier is called; when
    the aligner raises, the classifier is not called; and the aligner is
    never called when [run_bowtie] is off. *)
Theorem tools_stop_at_first_failure :
  forall (w : World)
         (forward reverse base_name bowtie2_index kraken_db output_dir : string)
         (threads : Z) (run_bowtie use_precomputed_reports : bool),
    let trace :=
      snd (process_sample w forward reverse base_name bowtie2_index kraken_db
             output_dir threads run_bowtie use_precomputed_reports) in
    (forall e,
        run_trimmomatic w forward reverse base_name output_dir threads
        = Raises e ->
        existsb is_bowtie2_call trace = false /\
        existsb is_kraken2_call trace = false)
    /\ (forall tf tr e,
          run_trimmomatic w forward reverse base_name output_dir threads
          = Returns (tf, tr) ->
          run_bowtie = true ->
          run_bowtie2 w tf tr base_name bowtie2_index output_dir threads
          = Raises e ->
          existsb is_kraken2_call trace = false)
    /\ (run_bowtie = false -> existsb is_bowtie2_call trace = false).
Proof.
  intros. subst trace. unfold process_sample, process_sample_body.
  destruct use_precomputed_reports; simpl negb; cbv iota.
  - destruct (path_exists w (precomputed_report_path output_dir base_name));
      simpl; repeat split; reflexivity.
  - split; [|split].
    + intros e T. rewrite T. destruct (is_Exception e); split; reflexivity.
    + intros tf tr e T -> B. rewrite T, B.
      destruct (is_Exception e); reflexivity.
    + intros ->.
      destruct (run_trimmomatic w forward reverse base_name output_dir threads)
        as [[tf tr]|e1].
      * destruct (run_kraken2 w tf tr base_name kraken_db output_dir threads)
          as [q|e3]; [reflexivity|].
        destruct (is_Exception e3); reflexivity.
      * destruct (is_Exception e1); reflexivity.
Qed.

Lemma tools_stop_at_first_failure_witness :
  existsb is_kraken2_call
    (snd (process_sample failing_world "r1.fq" "r2.fq" "x" "idx" "db" "out" 4
            true false)) = false
  /\ existsb is_bowtie2_call
       (snd (process_sample interrupted_world "r1.fq" "r2.fq" "x" "idx" "db"
               "out" 4 true false)) = false
  /\ existsb is_bowtie2_call
       (snd (process_sample sample_world "r1.fq" "r2.fq" "x" "idx" "db"
               "out" 4 false false)) = false.
Proof.
  split; [|split].
  - apply (proj1 (proj2 (tools_stop_at_first_failure failing_world "r1.fq"
                           "r2.fq" "x" "idx" "db" "out" 4 true false))
             "r1.fq.trimmed" "r2.fq.trimmed"
             (PyException "CalledProcessError" "bowtie2 failed"));
      reflexivity.
  - apply (proj1 (tools_stop_at_first_failure interrupted_world "r1.fq"
                    "r2.fq" "x" "idx" "db" "out" 4 true false)
             (PyBaseException "KeyboardInterrupt" "")).
    reflexivity.
  - apply (proj2 (proj2 (tools_stop_at_first_failure sample_world "r1.fq"
                           "r2.fq" "x" "idx" "db" "out" 4 false false))).
    reflexivity.
Defined.

Lemma body_prints_nothing w forward reverse base_name bowtie2_index kraken_db
    output_dir threads run_bowtie use_precomputed_reports :
  existsb is_print
    (snd (process_sample_body w forward reverse base_name bowtie2_index
            kraken_db output_dir threads run_bowtie use_precomputed_reports))
  = false.
Proof.
  unfold process_sample_body. destruct use_precomputed_reports; simpl negb;
    cbv iota.
  - destruct (path_exists w (precomputed_report_path output_dir base_name));
      reflexivity.
  - destruct (run_trimmomatic w forward reverse base_name output_dir threads)
      as [[tf tr]|e1]; [|reflexivity].
    destruct run_bowtie; [|reflexivity].
    destruct (run_bowtie2 w tf tr base_name bowtie2_index output_dir threads)
      as [[u1 u2]|e2]; reflexivity.
Qed.

(** X3: the call returns [None] exactly when it prints, and it then
    prints one line, last, made of the sample identifier and the message of
    the exception; a returned path or an exception that leaves the call
    comes with no printed line. *)
Theorem none_iff_printed :
  forall (w : World)
         (forward reverse base_name bowtie2_index kraken_db output_dir : string)
         (threads : Z) (run_bowtie use_precomputed_reports : bool),
    let run :=
      process_sample w forward reverse base_name bowtie2_index kraken_db
        output_dir threads run_bowtie use_precomputed_reports in
    (fst run = Returns None <-> existsb is_print (snd run) = true)
    /\ (fst run = Returns None ->
        exists evs msg,
          snd run = evs ++ [Print ("Error processing sample " ++ base_name
                                   ++ ": " ++ msg)] /\
          existsb is_print evs = false).
Proof.
  intros. subst run. unfold process_sample.
  pose proof (body_prints_nothing w forward reverse base_name bowtie2_index
                kraken_db output_dir threads run_bowtie
                use_precomputed_reports) as Hb.
  destruct (process_sample_body w forward reverse base_name bowtie2_index
              kraken_db output_dir threads run_bowtie use_precomputed_reports)
    as [[v|e] evs]; simpl in Hb.
  - simpl. rewrite Hb. split; [split|]; discriminate.
  - destruct (is_Exception e); simpl.
    + rewrite existsb_app, Hb. simpl. split; [split; reflexivity|].
      intros _. exists evs, (exn_msg e). split; [reflexivity | exact Hb].
    + rewrite Hb. split; [split|]; discriminate.
Qed.

Lemma none_iff_printed_witness :
  exists evs msg,
    snd (process_sample sample_world "r1.fq" "r2.fq" "y" "idx" "db" "out" 4
           true true)
    = evs ++ [Print ("Error processing sample " ++ "y" ++ ": " ++ msg)] /\
    existsb is_print evs = false.
Proof.
  apply (proj2 (none_iff_printed sample_world "r1.fq" "r2.fq" "y" "idx" "db"
                  "out" 4 true true)).
  reflexivity.
Defined.

(** X4: without precomputed reports the file system is never asked
    whether a path exists: two environments with the same tools give the
    same result and trace, so the path the classifier returns is handed
    back unchecked. *)
Theorem pipeline_never_checks_paths :
  forall (w w' : World)
         (forward reverse base_name bowtie2_index kraken_db output_dir : string)
         (threads : Z) (run_bowtie : bool),
    (forall f r b o t, run_trimmomatic w f r b o t = run_trimmomatic w' f r b o t) ->
    (forall f r b i o t, run_bowtie2 w f r b i o t = run_bowtie2 w' f r b i o t) ->
    (forall f r b d o t, run_kraken2 w f r b d o t = run_kraken2 w' f r b d o t) ->
    process_sample w forward reverse base_name bowtie2_index kraken_db
      output_dir threads run_bowtie false
    = process_sample w' forward reverse base_name bowtie2_index kraken_db
        output_dir threads run_bowtie false.
Proof.
  intros w w' forward reverse base_name bowtie2_index kraken_db output_dir
         threads run_bowtie HT HB HK.
  unfold process_sample, process_sample_body. simpl negb. cbv iota.
  rewrite HT.
  destruct (run_trimmomatic w' forward reverse base_name output_dir threads)
    as [[tf tr]|e1]; [|reflexivity].
  destruct run_bowtie.
  - rewrite HB.
    destruct (run_bowtie2 w' tf tr base_name bowtie2_index output_dir threads)
      as [[u1 u2]|e2]; [|reflexivity].
    rewrite HK. reflexivity.
  - rewrite HK. reflexivity.
Qed.

Lemma pipeline_never_checks_paths_witness :
  process_sample sample_world "r1.fq" "r2.fq" "y" "idx" "db" "out" 4 true false
  = process_sample
      {| path_exists := fun _ => false;
         run_trimmomatic := run_trimmomatic sample_world;
         run_bowtie2 := run_bowtie2 sample_world;
         run_kraken2 := run_kraken2 sample_world;
         read_csv := read_csv sample_world;
         listdir := listdir sample_world;
         read_text := read_text sample_world;
         can_write := can_write sample_world |}
      "r1.fq" "r2.fq" "y" "idx" "db" "out" 4 true false.
Proof.
  apply pipeline_never_checks_paths; intros; reflexivity.
Defined.

(* ================================================================== *)
(** * aggregate_kraken_results: failures *)
(* ================================================================== *)

Lemma parse_row_well_formed (line : string) :
  (exists r, parse_row line = Some r) <-> well_formed_line line.
Proof.
  unfold parse_row, well_formed_line.
  destruct (split_on TAB (strip line))
    as [|f0 [|f1 [|f2 [|f3 [|f4 [|f5 rest]]]]]]; simpl;
    try (split; [intros [r H]; discriminate | intros [H _]; lia]).
  destruct (py_int f2) as [n|]; simpl.
  - split; [intros _; split; [lia | discriminate] | intros _; eexists; reflexivity].
  - split; [intros [r H]; discriminate | intros [_ H]; congruence].
Qed.

Lemma process_line_parses md read_count file_name st line st' :
  process_line md read_count file_name st line = Some st' ->
  exists r, parse_row line = Some r.
Proof.
  unfold process_line. destruct (parse_row line) as [r|]; simpl;
    [eexists; reflexivity | discriminate].
Qed.

Lemma scan_lines_parses md read_count file_name lines : forall st st',
  scan_lines md read_count file_name st lines = Some st' ->
  forall line, In line lines -> exists r, parse_row line = Some r.
Proof.
  induction lines as [|l rest IH]; simpl; intros st st' H line Hin;
    [contradiction|].
  destruct (process_line md read_count file_name st l) as [st1|] eqn:E;
    simpl in H; [|discriminate].
  destruct Hin as [<-|Hin]; [exact (process_line_parses _ _ _ _ _ E) | eauto].
Qed.

Lemma scan_files_parses w md read_count kraken_dir names : forall st st',
  scan_files w md read_count kraken_dir st names = Some st' ->
  forall file_name text line,
    In file_name names -> is_report file_name = true ->
    read_text w (os_path_join kraken_dir file_name) = Some text ->
    In line (file_lines text) ->
    exists r, parse_row line = Some r.
Proof.
  induction names as [|n rest IH]; simpl; intros st st' H fn text line Hin Hr T Hl;
    [contradiction|].
  fold (is_report n) in H. destruct (is_report n) eqn:R.
  - destruct (read_text w (os_path_join kraken_dir n)) as [text'|] eqn:T';
      simpl in H; [|discriminate].
    destruct (scan_lines md read_count n st (file_lines text')) as [st1|] eqn:L;
      simpl in H; [|discriminate].
    destruct Hin as [->|Hin]; [|eauto].
    rewrite T in T'. injection T' as <-.
    exact (scan_lines_parses _ _ _ _ _ L line Hl).
  - destruct Hin as [->|Hin]; [congruence | eauto].
Qed.

Lemma gather_None_aggregate w kraken_dir metadata_file sample_id_df read_count :
  gather w kraken_dir metadata_file sample_id_df read_count = None ->
  aggregate_kraken_results w kraken_dir metadata_file sample_id_df read_count
  = (None, []).
Proof. intros H. unfold aggregate_kraken_results. rewrite H. reflexivity. Qed.

Lemma gather_None_of_scan w kraken_dir metadata_file sample_id_df read_count :
  (forall md, resolve_metadata w metadata_file sample_id_df = Some md ->
              scan_reports w md read_count kraken_dir = None) ->
  gather w kraken_dir metadata_file sample_id_df read_count = None.
Proof.
  intros H. unfold gather.
  destruct (resolve_metadata w metadata_file sample_id_df) as [md|];
    [|reflexivity].
  simpl. destruct (sample_id_col md); simpl; [|reflexivity].
  rewrite (H md eq_refl). reflexivity.
Qed.

(** X6: one line of one report that does not have six TAB-separated
    fields with an integer in the third place makes the whole call return
    [None] without writing anything, whatever the other lines and reports
    hold. *)
Theorem malformed_line_aborts :
  forall (w : World) (kraken_dir : string) (metadata_file : option string)
         (sample_id_df : option DataFrame) (read_count : Z)
         (names : list string) (file_name text line : string),
    listdir w kraken_dir = Some names ->
    In file_name names ->
    endswith file_name "_report.txt" = true ->
    read_text w (os_path_join kraken_dir file_name) = Some text ->
    In line (file_lines text) ->
    ~ well_formed_line line ->
    aggregate_kraken_results w kraken_dir metadata_file sample_id_df read_count
    = (None, []).
Proof.
  intros w kraken_dir metadata_file sample_id_df read_count names fn text line
         Hl Hin Hr T Hline Hbad.
  apply gather_None_aggregate, gather_None_of_scan. intros md _.
  unfold scan_reports. rewrite Hl. simpl.
  destruct (scan_files w md read_count kraken_dir ([], []) names) as [st|] eqn:S;
    [|reflexivity].
  exfalso. apply Hbad. apply parse_row_well_formed.
  eapply scan_files_parses;
    [exact S | exact Hin | exact Hr | exact T | exact Hline].
Qed.

Lemma malformed_line_aborts_witness :
  aggregate_kraken_results (two_report_world (Some bad_report))
    "k" None (Some sample_metadata) 0
  = (None, []).
Proof.
  apply (@malformed_line_aborts _ "k" None (Some sample_metadata) 0
           ["s_1_report.txt"; "s_2_report.txt"] "s_2_report.txt"
           bad_report bad_report).
  - reflexivity.
  - right. left. reflexivity.
  - reflexivity.
  - reflexivity.
  - left. reflexivity.
  - intros [_ H]. apply H. reflexivity.
Defined.

(** X7: a directory that cannot be listed, a metadata table without any
    column, or one report of the listing that cannot be read each make the
    call return [None] without writing anything. *)
Theorem unusable_input_aborts :
  forall (w : World) (kraken_dir : string) (metadata_file : option string)
         (sample_id_df : option DataFrame) (read_count : Z),
    (listdir w kraken_dir = None ->
     aggregate_kraken_results w kraken_dir metadata_file sample_id_df
       read_count = (None, []))
    /\ (forall md,
          resolve_metadata w metadata_file sample_id_df = Some md ->
          columns md = [] ->
          aggregate_kraken_results w kraken_dir metadata_file sample_id_df
            read_count = (None, []))
    /\ (forall names file_name,
          listdir w kraken_dir = Some names ->
          In file_name names ->
          endswith file_name "_report.txt" = true ->
          read_text w (os_path_join kraken_dir file_name) = None ->
          aggregate_kraken_results w kraken_dir metadata_file sample_id_df
            read_count = (None, [])).
Proof.
  intros w kraken_dir metadata_file sample_id_df read_count.
  split; [|split].
  - intros Hl. apply gather_None_aggregate, gather_None_of_scan.
    intros md _. unfold scan_reports. rewrite Hl. reflexivity.
  - intros md Hmd Hc. apply gather_None_aggregate.
    unfold gather, sample_id_col. rewrite Hmd. simpl. rewrite Hc. reflexivity.
  - intros names fn Hl Hin Hr T.
    apply gather_None_aggregate, gather_None_of_scan. intros md _.
    unfold scan_reports. rewrite Hl. simpl.
    destruct (scan_files w md read_count kraken_dir ([], []) names)
      as [st|] eqn:S; [|reflexivity].
    destruct (scan_files_opens _ _ _ _ _ _ S fn Hin Hr) as [text T'].
    congruence.
Qed.

Lemma unusable_input_aborts_witness :
  aggregate_kraken_results sample_world "nowhere" None (Some sample_metadata) 0
  = (None, [])
  /\ aggregate_kraken_results sample_world "k" None
       (Some {| columns := []; rows := [] |}) 0 = (None, [])
  /\ aggregate_kraken_results (two_report_world None) "k" None
       (Some sample_metadata) 0 = (None, []).
Proof.
  split; [|split].
  - apply (proj1 (unusable_input_aborts sample_world "nowhere" None
                    (Some sample_metadata) 0)).
    reflexivity.
  - apply (proj1 (proj2 (unusable_input_aborts sample_world "k" None
                           (Some {| columns := []; rows := [] |}) 0))
             {| columns := []; rows := [] |}); reflexivity.
  - apply (proj2 (proj2 (unusable_input_aborts (two_report_world None) "k"
                           None (Some sample_metadata) 0))
             ["s_1_report.txt"; "s_2_report.txt"] "s_2_report.txt");
      [reflexivity | right; left; reflexivity | reflexivity | reflexivity].
Defined.

(* ================================================================== *)
(** * aggregate_kraken_results: what is written and returned *)
(* ================================================================== *)


(** Every record of a completed scan has a value under every header. *)
Lemma scan_records_cover w md read_count kraken_dir agg ids :
  scan_reports w md read_count kraken_dir = Some (agg, ids) ->
  forall kv, In kv agg -> covers (headers md) (snd kv).
Proof.
  intros Hs [k rec] Hin. apply scan_reports_spec in Hs.
  destruct Hs as (names & _ & Hst). injection Hst as -> _.
  apply absorb_all_In in Hin. destruct Hin as [[]|([fn line] & _ & Hc)].
  apply contribution_Some_iff in Hc.
  destruct Hc as (r & m & _ & _ & _ & Hm & _ & ->).
  simpl. eapply build_record_covers. exact Hm.
Qed.

Lemma gather_rows_written w kraken_dir metadata_file sample_id_df read_count
    md agg ids :
  gather w kraken_dir metadata_file sample_id_df read_count
  = Some (md, (agg, ids)) ->
  exists content,
    write_rows (headers md) agg (header_line md) = (content, true).
Proof.
  intros Hg. apply gather_spec in Hg. destruct Hg as (_ & _ & Hs).
  apply write_rows_ok. intros kv Hin. eapply scan_records_cover; eassumption.
Qed.




(* ================================================================== *)
(** * aggregate_kraken_results: what the result depends on *)
(* ================================================================== *)

Lemma scan_files_ext w w' md read_count kraken_dir names : forall st,
  (forall file_name,
      In file_name names -> is_report file_name = true ->
      read_text w (os_path_join kraken_dir file_name)
      = read_text w' (os_path_join kraken_dir file_name)) ->
  scan_files w md read_count kraken_dir st names
  = scan_files w' md read_count kraken_dir st names.
Proof.
  induction names as [|n rest IH]; intros st H; [reflexivity|].
  simpl. fold (is_report n). destruct (is_report n) eqn:R.
  - rewrite (H n (or_introl eq_refl) R).
    destruct (read_text w' (os_path_join kraken_dir n)); simpl; [|reflexivity].
    destruct (scan_lines md read_count n st (file_lines s)); simpl;
      [|reflexivity].
    apply IH. intros fn Hin. apply H. right. exact Hin.
  - apply IH. intros fn Hin. apply H. right. exact Hin.
Qed.

(** X10: the result depends on the directory only through its report
    entries, in their order, and their texts.  Two environments that agree
    on the metadata file and on what can be written, whose listings hold
    the same reports in the same order with the same texts, give the same
    result and the same writes: other entries, such as the two files the
    call itself writes, change nothing. *)
Theorem only_reports_matter :
  forall (w w' : World) (kraken_dir : string) (metadata_file : option string)
         (sample_id_df : option DataFrame) (read_count : Z)
         (names names' : list string),
    (forall p, path_exists w p = path_exists w' p) ->
    (forall p, read_csv w p = read_csv w' p) ->
    (forall p, can_write w p = can_write w' p) ->
    listdir w kraken_dir = Some names ->
    listdir w' kraken_dir = Some names' ->
    filter (fun n => endswith n "_report.txt") names
    = filter (fun n => endswith n "_report.txt") names' ->
    (forall file_name,
        In file_name names -> endswith file_name "_report.txt" = true ->
        read_text w (os_path_join kraken_dir file_name)
        = read_text w' (os_path_join kraken_dir file_name)) ->
    aggregate_kraken_results w kraken_dir metadata_file sample_id_df read_count
    = aggregate_kraken_results w' kraken_dir metadata_file sample_id_df
        read_count.
Proof.
  intros w w' kraken_dir metadata_file sample_id_df read_count names names'
         HX HC HW Hl Hl' Hf HT.
  assert (Hres : resolve_metadata w metadata_file sample_id_df
                 = resolve_metadata w' metadata_file sample_id_df).
  { unfold resolve_metadata. destruct (path_given metadata_file) as [p|];
      [|reflexivity]. rewrite HX, HC. reflexivity. }
  assert (Hscan : forall md,
             scan_reports w md read_count kraken_dir
             = scan_reports w' md read_count kraken_dir).
  { intros md. unfold scan_reports. rewrite Hl, Hl'. simpl.
    rewrite (scan_files_filter w md read_count kraken_dir names).
    rewrite (scan_files_filter w' md read_count kraken_dir names').
    change (filter is_report names = filter is_report names') in Hf.
    rewrite <- Hf. apply scan_files_ext.
    intros fn Hin Hr. apply filter_In in Hin. apply HT; tauto. }
  unfold aggregate_kraken_results, gather. rewrite Hres.
  destruct (resolve_metadata w' metadata_file sample_id_df) as [md|];
    [|reflexivity].
  simpl. destruct (sample_id_col md); [|reflexivity]. simpl.
  rewrite Hscan.
  destruct (scan_reports w' md read_count kraken_dir) as [[agg ids]|];
    [|reflexivity].
  simpl. rewrite !HW. reflexivity.
Qed.

Lemma only_reports_matter_witness :
  aggregate_kraken_results sample_world "k" None (Some sample_metadata) 30
  = aggregate_kraken_results
      {| path_exists := path_exists sample_world;
         run_trimmomatic := run_trimmomatic sample_world;
         run_bowtie2 := run_bowtie2 sample_world;
         run_kraken2 := run_kraken2 sample_world;
         read_csv := read_csv sample_world;
         listdir := fun _ => Some ["merged_kraken1.tsv"; "s_1_report.txt";
                                   "sample_ids.csv"];
         read_text := fun p => if String.eqb p "k/s_1_report.txt"
                               then Some sample_report
                               else Some "Sample_IDs";
         can_write := can_write sample_world |}
      "k" None (Some sample_metadata) 30.
Proof.
  apply (@only_reports_matter sample_world _ "k" None (Some sample_metadata)
           30 ["s_1_report.txt"; "notes.txt"]
           ["merged_kraken1.tsv"; "s_1_report.txt"; "sample_ids.csv"]);
    try reflexivity.
  intros fn [<-|[<-|[]]] Hr; [reflexivity | discriminate].
Defined.

(** X13: two report files of a directory never share a sample
    identifier: names ending in [_report.txt] with the same derived
    identifier are the same name. *)
Theorem sample_id_determines_report :
  forall a b : string,
    endswith a "_report.txt" = true ->
    endswith b "_report.txt" = true ->
    extracted_part a = extracted_part b ->
    a = b.
Proof.
  intros a b Ha Hb H.
  destruct (endswith_inv _ _ Ha) as [p ->].
  destruct (endswith_inv _ _ Hb) as [q ->].
  fold REPORT_SUFFIX in H. rewrite !extracted_part_app in H. congruence.
Qed.

Lemma sample_id_determines_report_witness :
  "s_1_report.txt" = "s_1_report.txt".
Proof.
  apply sample_id_determines_report; reflexivity.
Defined.

(* ================================================================== *)
(** * aggregate_kraken_results: order and number of the data rows *)
(* ================================================================== *)

Lemma dict_keys_set_add_key (V : Type) (k : string) (v : V) (d : PyDict V) :
  dict_keys (dict_set k v d) = add_key (dict_keys d) k.
Proof.
  unfold add_key, dict_keys. induction d as [|[k' v'] d IH]; simpl;
    [reflexivity|].
  destruct (String.eqb k k') eqn:E; simpl.
  - apply String.eqb_eq in E. subst k'. reflexivity.
  - rewrite IH. destruct (existsb (String.eqb k) (map fst d)); reflexivity.
Qed.

Lemma absorb_all_key_order (E V : Type) (f : E -> option (string * V))
    (l : list E) : forall d,
  dict_keys (absorb_all f d l)
  = fold_left add_key
      (flat_map (fun e => match f e with
                          | Some (k, _) => [k]
                          | None => []
                          end) l)
      (dict_keys d).
Proof.
  induction l as [|e l IH]; intros d; [reflexivity|].
  simpl. rewrite fold_left_app, IH. f_equal.
  unfold absorb. destruct (f e) as [[k v]|]; simpl; [|reflexivity].
  apply dict_keys_set_add_key.
Qed.

Lemma add_key_length (ks : list string) (k : string) :
  (length (add_key ks k) <= S (length ks))%nat.
Proof.
  unfold add_key. destruct (existsb (String.eqb k) ks); [lia|].
  rewrite length_app. simpl. lia.
Qed.

Lemma fold_add_key_length (l : list string) : forall ks,
  (length (fold_left add_key l ks) <= length ks + length l)%nat.
Proof.
  induction l as [|k l IH]; intros ks; simpl; [lia|].
  specialize (IH (add_key ks k)). pose proof (add_key_length ks k). lia.
Qed.

Lemma selected_keys_length md read_count (l : list (string * string)) :
  (length (selected_keys md read_count l) <= length l)%nat.
Proof.
  unfold selected_keys. induction l as [|e l IH]; simpl; [lia|].
  rewrite length_app.
  destruct (contribution md read_count e) as [[k v]|]; simpl; lia.
Qed.

Lemma omap_all_Forall2 (A B : Type) (f : A -> option B)
    (R : A -> B -> Prop) (l : list A) :
  (forall a b, In a l -> f a = Some b -> R a b) ->
  forall bs, omap_all f l = Some bs -> Forall2 R l bs.
Proof.
  induction l as [|a l IH]; simpl; intros HR bs H.
  - injection H as <-. constructor.
  - destruct (f a) as [b|] eqn:Fa; simpl in H; [|discriminate].
    destruct (omap_all f l) as [bs'|]; simpl in H; [|discriminate].
    injection H as <-. constructor; [eauto | apply IH; eauto].
Qed.

(** X11: the merged table has one data row for each distinct key, in the
    order in which the keys are first met while reading: a later row with
    a key already met replaces the values of the record but leaves it in
    its place.  There are never more data rows than entries in the
    sample-id list. *)
Theorem rows_in_first_seen_order :
  forall (w : World) (kraken_dir : string) (metadata_file : option string)
         (sample_id_df : option DataFrame) (read_count : Z)
         (path content : string),
    In (WriteFile path content)
       (snd (aggregate_kraken_results w kraken_dir metadata_file
               sample_id_df read_count)) ->
    exists md names agg ids rows,
      resolve_metadata w metadata_file sample_id_df = Some md /\
      listdir w kraken_dir = Some names /\
      scan_reports w md read_count kraken_dir = Some (agg, ids) /\
      dict_keys agg
      = first_seen (selected_keys md read_count (rows_read w kraken_dir names)) /\
      omap_all (fun kv => render_row (headers md) (snd kv)) agg = Some rows /\
      content = (header_line md ++ rows_text rows)%string /\
      length rows = length (dict_keys agg) /\
      (length rows <= length ids)%nat.
Proof.
  intros w kraken_dir metadata_file sample_id_df read_count path content H.
  apply aggregate_events in H.
  destruct H as (md & agg & ids & content' & ok & Hg & Hw & [H|H]);
    [|discriminate].
  injection H as _ ->.
  destruct (@gather_rows_written w kraken_dir metadata_file sample_id_df
              read_count md agg ids Hg) as [content'' W].
  rewrite W in Hw. injection Hw as <- <-.
  apply gather_spec in Hg. destruct Hg as (Hmd & _ & Hs).
  apply write_rows_spec in W. destruct W as (rows & -> & _ & Hok).
  specialize (Hok eq_refl).
  pose proof (scan_reports_spec _ _ _ _ Hs) as (names & Hl & Hst).
  injection Hst as Hagg Hids.
  assert (Hkeys : dict_keys agg
                  = first_seen (selected_keys md read_count
                                  (rows_read w kraken_dir names))).
  { rewrite Hagg. apply (absorb_all_key_order (contribution md read_count)). }
  exists md, names, agg, ids, rows.
  repeat (split; [assumption || reflexivity|]).
  assert (Hlen : length rows = length (dict_keys agg)).
  { unfold dict_keys. rewrite length_map. exact (omap_all_length _ _ Hok). }
  split; [exact Hlen|].
  rewrite Hlen, Hkeys, Hids, length_map. unfold first_seen.
  pose proof (fold_add_key_length
                (selected_keys md read_count (rows_read w kraken_dir names)) []).
  pose proof (selected_keys_length md read_count (rows_read w kraken_dir names)).
  simpl in *. lia.
Qed.

Lemma rows_in_first_seen_order_witness :
  exists md names agg ids rows,
    resolve_metadata (two_report_world (Some EmptyString)) None
      (Some sample_metadata) = Some md /\
    listdir (two_report_world (Some EmptyString)) "k" = Some names /\
    scan_reports (two_report_world (Some EmptyString)) md 0 "k"
    = Some (agg, ids) /\
    dict_keys agg
    = first_seen (selected_keys md 0
                    (rows_read (two_report_world (Some EmptyString)) "k" names)) /\
    omap_all (fun kv => render_row (headers md) (snd kv)) agg = Some rows /\
    (header_line sample_metadata
     ++ "3.0" ++ TABS ++ "7" ++ TABS ++ "7" ++ TABS ++ "S" ++ TABS ++ "562"
     ++ TABS ++ "E. coli" ++ TABS ++ "s_1" ++ TABS ++ "Lagos" ++ NLS
     ++ "2.0" ++ TABS ++ "8" ++ TABS ++ "8" ++ TABS ++ "S" ++ TABS ++ "1280"
     ++ TABS ++ "Staphylococcus aureus" ++ TABS ++ "s_1" ++ TABS ++ "Lagos"
     ++ NLS)%string
    = (header_line md ++ rows_text rows)%string /\
    length rows = length (dict_keys agg) /\
    (length rows <= length ids)%nat.
Proof.
  apply (@rows_in_first_seen_order (two_report_world (Some EmptyString)) "k"
           None (Some sample_metadata) 0 "k/merged_kraken1.tsv").
  vm_compute. left. reflexivity.
Defined.

Lemma rank_and_count_ok_mono (rc1 rc2 : Z) (r : ReportRow) :
  (rc1 <= rc2)%Z ->
  rank_and_count_ok rc2 r = true -> rank_and_count_ok rc1 r = true.
Proof.
  intros Hle H. apply rank_and_count_ok_iff in H.
  apply rank_and_count_ok_iff. split; [tauto | lia].
Qed.

(** X12: raising the threshold can only remove records.  When the scan
    completes for two thresholds, every key kept under the higher one is
    kept under the lower one, and the sample-id list is the same. *)
Theorem higher_threshold_keeps_fewer :
  forall (w : World) (md : DataFrame) (rc1 rc2 : Z) (kraken_dir : string)
         (agg1 agg2 : PyDict AggregatedRecord) (ids1 ids2 : list string),
    (rc1 <= rc2)%Z ->
    scan_reports w md rc1 kraken_dir = Some (agg1, ids1) ->
    scan_reports w md rc2 kraken_dir = Some (agg2, ids2) ->
    ids1 = ids2 /\
    forall k, In k (dict_keys agg2) -> In k (dict_keys agg1).
Proof.
  intros w md rc1 rc2 kraken_dir agg1 agg2 ids1 ids2 Hle H1 H2.
  apply scan_reports_spec in H1. destruct H1 as (names & Hl & Hst1).
  apply scan_reports_spec in H2. destruct H2 as (names' & Hl' & Hst2).
  assert (names' = names) by congruence. subst names'.
  injection Hst1 as -> ->. injection Hst2 as -> ->.
  split; [reflexivity|].
  intros k Hk. apply absorb_all_keys in Hk. apply absorb_all_keys.
  destruct Hk as ([fn line] & v & Hin & Hc).
  apply contribution_Some_iff in Hc.
  destruct Hc as (r & m & Hp & Hr & Hi & Hm & Hk & Hv).
  exists (fn, line), v. split; [exact Hin|].
  apply contribution_Some_iff. exists r, m.
  pose proof (rank_and_count_ok_mono r Hle Hr). auto 6.
Qed.

Lemma higher_threshold_keeps_fewer_witness :
  exists agg1 agg2 ids,
    scan_reports sample_world sample_metadata 30 "k" = Some (agg1, ids) /\
    scan_reports sample_world sample_metadata 100 "k" = Some (agg2, ids) /\
    forall k, In k (dict_keys agg2) -> In k (dict_keys agg1).
Proof.
  eexists. eexists. eexists.
  split; [vm_compute; reflexivity|]. split; [vm_compute; reflexivity|].
  refine (proj2 (@higher_threshold_keeps_fewer sample_world sample_metadata
                   30 100 "k" _ _ _ _ _ eq_refl eq_refl)).
  lia.
Defined.

(* ================================================================== *)
(** * The metadata carried by a record *)
(* ================================================================== *)

Lemma find_first (A : Type) (p : A -> bool) (l : list A) (x : A) :
  find p l = Some x ->
  exists pre post,
    l = pre ++ x :: post /\ p x = true /\ forall y, In y pre -> p y = false.
Proof.
  induction l as [|a l IH]; simpl; [discriminate|].
  destruct (p a) eqn:Pa.
  - intros H. injection H as <-. exists [], l.
    split; [reflexivity|]. split; [exact Pa | intros y []].
  - intros H. destruct (IH H) as (pre & post & -> & Px & Hpre).
    exists (a :: pre), post. split; [reflexivity|]. split; [exact Px|].
    intros y [<-|Hy]; [exact Pa | exact (Hpre y Hy)].
Qed.

Lemma row_items_nth (cols : list string) : forall row i c,
  nth_error cols i = Some c ->
  In (c, nth i row NaN) (row_items cols row).
Proof.
  induction cols as [|c0 cs IH]; intros row i c H.
  - destruct i; discriminate.
  - destruct i as [|i]; simpl in H.
    + injection H as <-. left. destruct row; reflexivity.
    + right. specialize (IH (tl row) i c H).
      destruct row as [|x row]; simpl in *; [|exact IH].
      destruct i; exact IH.
Qed.

Lemma dict_update_nodup_get (V : Type) (e : PyDict V) : forall d k v,
  NoDup (map fst e) -> In (k, v) e ->
  dict_get k (dict_update d e) = Some v.
Proof.
  induction e as [|[k0 v0] e IH]; intros d k v Hnd Hin; [contradiction|].
  simpl in Hnd. inversion Hnd as [|? ? Hnin Hnd']; subst.
  change (dict_update d ((k0, v0) :: e))
    with (dict_update (dict_set k0 v0 d) e).
  destruct Hin as [H|H].
  - injection H as -> ->.
    rewrite dict_update_get_other by exact Hnin.
    apply dict_get_set_same.
  - apply IH; assumption.
Qed.

Lemma dict_set_fresh (V : Type) (k : string) (v : V) (d : PyDict V) :
  ~ In k (dict_keys d) -> dict_set k v d = d ++ [(k, v)].
Proof.
  unfold dict_keys. induction d as [|[k' v'] d IH]; simpl; intros H;
    [reflexivity|].
  destruct (String.eqb k k') eqn:E.
  - apply String.eqb_eq in E. subst. tauto.
  - rewrite IH by tauto. reflexivity.
Qed.

Lemma dict_update_fresh (V : Type) (e : PyDict V) : forall d,
  NoDup (map fst e) ->
  (forall k, In k (map fst e) -> ~ In k (dict_keys d)) ->
  dict_update d e = d ++ e.
Proof.
  induction e as [|[k0 v0] e IH]; intros d Hnd Hfresh.
  - simpl. rewrite app_nil_r. reflexivity.
  - simpl in Hnd. inversion Hnd as [|? ? Hnin Hnd']; subst.
    change (dict_update d ((k0, v0) :: e))
      with (dict_update (dict_set k0 v0 d) e).
    rewrite dict_set_fresh by (apply Hfresh; left; reflexivity).
    rewrite IH.
    + rewrite <- app_assoc. reflexivity.
    + exact Hnd'.
    + intros k Hk Hin. unfold dict_keys in Hin.
      rewrite map_app, in_app_iff in Hin. simpl in Hin.
      destruct Hin as [Hin|[<-|[]]]; [|exact (Hnin Hk)].
      apply (Hfresh k); [right; exact Hk | exact Hin].
Qed.

(** X16: the metadata of a record is that of the first row of the table
    whose first cell is the sample identifier, later rows for the same
    sample being ignored.  With distinct column labels, the record holds
    under each label the cell of that column (NaN where the row is short),
    also under a label that is one of the seven fixed field names, whose
    report value is thereby replaced. *)
Theorem record_metadata_values :
  forall (md : DataFrame) (sample : string) (m : PyDict Cell) (r : ReportRow),
    sample_metadata_of md sample = Some m ->
    NoDup (columns md) ->
    exists pre row post,
      rows md = pre ++ row :: post /\
      hd NaN row = CStr sample /\
      (forall row', In row' pre -> hd NaN row' <> CStr sample) /\
      forall i c,
        nth_error (columns md) i = Some c ->
        dict_get c (build_record r sample m) = Some (nth i row NaN).
Proof.
  intros md sample m r Hm Hnd. unfold sample_metadata_of in Hm.
  destruct (find (fun r => cell_eq_str (hd NaN r) sample) (rows md))
    as [row|] eqn:F; simpl in Hm; [|discriminate].
  injection Hm as <-.
  destruct (find_first _ _ F) as (pre & post & Hrows & Hrow & Hpre).
  exists pre, row, post. split; [exact Hrows|]. split; [|split].
  - destruct (hd NaN row); simpl in Hrow; try discriminate.
    apply String.eqb_eq in Hrow. congruence.
  - intros row' Hin Heq. specialize (Hpre row' Hin). simpl in Hpre.
    rewrite Heq in Hpre. simpl in Hpre. rewrite String.eqb_refl in Hpre.
    discriminate.
  - intros i c Hc. unfold build_record.
    rewrite (@dict_update_fresh Cell (row_items (columns md) row) []).
    + simpl. apply dict_update_nodup_get.
      * rewrite row_items_keys. exact Hnd.
      * apply row_items_nth. exact Hc.
    + rewrite row_items_keys. exact Hnd.
    + intros k _ [].
Qed.

Lemma record_metadata_values_witness :
  exists pre row post,
    rows repeated_metadata = pre ++ row :: post /\
    hd NaN row = CStr "s_1" /\
    (forall row', In row' pre -> hd NaN row' <> CStr "s_1") /\
    forall i c,
      nth_error (columns repeated_metadata) i = Some c ->
      dict_get c
        (build_record
           {| perc_frag_cover := "1.0"; nr_frag_cover := "9";
              nr_frag_direct_at_taxon := 9; rank_code := "S";
              ncbi_ID := "562"; scientific_name := "Escherichia coli" |}
           "s_1"
           (dict_update [] (row_items (columns repeated_metadata)
                              [CStr "s_1"; CStr "Lagos"])))
      = Some (nth i row NaN).
Proof.
  apply record_metadata_values.
  - reflexivity.
  - simpl. repeat constructor; simpl; intuition discriminate.
Defined.

(* ================================================================== *)
(** * Reading a written row back *)
(* ================================================================== *)

Lemma omap_all_map (A B : Type) (f : A -> option B) (l : list A) :
  forall bs, omap_all f l = Some bs -> map Some bs = map f l.
Proof.
  induction l as [|a l IH]; simpl; intros bs H.
  - injection H as <-. reflexivity.
  - destruct (f a) as [b|]; simpl in H; [|discriminate].
    destruct (omap_all f l) as [bs'|]; simpl in H; [|discriminate].
    injection H as <-. simpl. rewrite (IH bs' eq_refl). reflexivity.
Qed.

Lemma render_row_split hs data row :
  hs <> [] -> tab_free_record data ->
  render_row hs data = Some row ->
  map Some (split_on TAB row)
  = map (fun col => option_map cell_str (dict_get col data)) hs.
Proof.
  intros Hne Htf. unfold render_row.
  destruct (omap_all (fun col => option_map cell_str (dict_get col data)) hs)
    as [vals|] eqn:Hv; simpl; [|discriminate].
  intros H. injection H as <-.
  unfold TABS. rewrite split_on_join.
  - apply omap_all_map. exact Hv.
  - intros ->. apply omap_all_length in Hv.
    destruct hs; [congruence | discriminate].
  - apply (@omap_all_Forall _ _
             (fun col => option_map cell_str (dict_get col data))
             (fun x => char_free TAB x = true) hs); [|exact Hv].
    intros col s _ Hs.
    destruct (dict_get col data) as [v|] eqn:G; simpl in Hs; [|discriminate].
    injection Hs as <-. apply dict_get_In in G. exact (Htf _ _ G).
Qed.

Lemma scan_records_tab_free w md read_count kraken_dir names agg ids :
  listdir w kraken_dir = Some names ->
  scan_reports w md read_count kraken_dir = Some (agg, ids) ->
  (forall row v, In row (rows md) -> In v row ->
                 char_free TAB (cell_str v) = true) ->
  (forall file_name, In file_name names -> is_report file_name = true ->
                     char_free TAB file_name = true) ->
  forall kv, In kv agg -> tab_free_record (snd kv).
Proof.
  intros Hl Hs Hcells Hnames [k rec] Hin.
  destruct (@scan_reports_records w md read_count kraken_dir names agg ids
              k rec Hl Hs Hin) as (fn & line & Hread & Hc).
  apply contribution_Some_iff in Hc.
  destruct Hc as (r & m & Hp & _ & _ & Hm & _ & ->).
  apply rows_read_names in Hread. destruct Hread as [Hfn Hrep].
  simpl. eapply build_record_tab_free; [exact Hp | |].
  - destruct (endswith_inv _ _ Hrep) as [p Hpfx].
    pose proof (Hnames fn Hfn Hrep) as Hfree.
    rewrite Hpfx, char_free_app in Hfree. apply andb_true_iff in Hfree.
    rewrite Hpfx, extracted_part_app. tauto.
  - intros k' v Hkv.
    destruct (@sample_metadata_values md _ m k' v Hm Hkv)
      as [->|(row' & Hr1 & Hr2)]; [reflexivity | eauto].
Qed.

(** X15: when no metadata cell and no report name holds a TAB, each data
    row of the merged table splits on TAB into exactly the texts of the
    values of its record, header by header: the rows stand in the order of
    the records, and nothing of a value is lost or moved to a neighbouring
    column. *)
Theorem written_rows_read_back :
  forall (w : World) (kraken_dir : string) (metadata_file : option string)
         (sample_id_df : option DataFrame) (read_count : Z)
         (md : DataFrame) (path content : string),
    resolve_metadata w metadata_file sample_id_df = Some md ->
    (forall row v, In row (rows md) -> In v row ->
                   char_free TAB (cell_str v) = true) ->
    (forall names file_name,
        listdir w kraken_dir = Some names -> In file_name names ->
        endswith file_name "_report.txt" = true ->
        char_free TAB file_name = true) ->
    In (WriteFile path content)
       (snd (aggregate_kraken_results w kraken_dir metadata_file
               sample_id_df read_count)) ->
    exists agg ids rows,
      scan_reports w md read_count kraken_dir = Some (agg, ids) /\
      content = (header_line md ++ rows_text rows)%string /\
      Forall2
        (fun kv row =>
           map Some (split_on TAB row)
           = map (fun col => option_map cell_str (dict_get col (snd kv)))
               (headers md))
        agg rows.
Proof.
  intros w kraken_dir metadata_file sample_id_df read_count md path content
         Hmd Hcells Hnames H.
  apply aggregate_events in H.
  destruct H as (md' & agg & ids & content' & ok & Hg & Hw & [H|H]);
    [|discriminate].
  injection H as _ ->.
  destruct (@gather_rows_written w kraken_dir metadata_file sample_id_df
              read_count md' agg ids Hg) as [content'' W].
  rewrite W in Hw. injection Hw as <- <-.
  apply gather_spec in Hg. destruct Hg as (Hmd' & _ & Hs).
  assert (md' = md) by congruence. subst md'.
  apply write_rows_spec in W. destruct W as (rows & -> & _ & Hok).
  specialize (Hok eq_refl).
  pose proof (scan_reports_spec _ _ _ _ Hs) as (names & Hl & _).
  exists agg, ids, rows. split; [exact Hs|]. split; [reflexivity|].
  eapply omap_all_Forall2; [|exact Hok].
  intros kv row Hin Hrender. simpl in Hrender.
  apply render_row_split; [unfold headers, FIXED_HEADERS; discriminate | |
                           exact Hrender].
  eapply scan_records_tab_free; [exact Hl | exact Hs | exact Hcells | | exact Hin].
  intros fn Hfn Hrep. exact (Hnames names fn Hl Hfn Hrep).
Qed.

Lemma written_rows_read_back_witness :
  exists agg ids rows,
    scan_reports sample_world sample_metadata 30 "k" = Some (agg, ids) /\
    (header_line sample_metadata
     ++ "12.5" ++ TABS ++ "100" ++ TABS ++ "50" ++ TABS ++ "S" ++ TABS
     ++ "9606" ++ TABS ++ "Homo sapiens" ++ TABS ++ "s_1" ++ TABS
     ++ "Lagos" ++ NLS)%string
    = (header_line sample_metadata ++ rows_text rows)%string /\
    Forall2
      (fun kv row =>
         map Some (split_on TAB row)
         = map (fun col => option_map cell_str (dict_get col (snd kv)))
             (headers sample_metadata))
      agg rows.
Proof.
  apply (@written_rows_read_back sample_world "k" None (Some sample_metadata)
           30 sample_metadata "k/merged_kraken1.tsv").
  - reflexivity.
  - intros row v Hrow Hv. simpl in Hrow.
    destruct Hrow as [<-|[<-|[]]]; simpl in Hv;
      destruct Hv as [<-|[<-|[]]]; reflexivity.
  - intros names fn Hl Hin _. injection Hl as <-. simpl in Hin.
    destruct Hin as [<-|[<-|[]]]; reflexivity.
  - vm_compute. left. reflexivity.
Defined.

(* ================================================================== *)
(** * White space around a report line *)
(* ================================================================== *)

Lemma lstrip_all_space (s : string) : all_space s = true -> lstrip s = EmptyString.
Proof.
  induction s as [|c r IH]; simpl; [reflexivity|].
  intros H. apply andb_true_iff in H. destruct H as [Hc Hr].
  rewrite Hc. exact (IH Hr).
Qed.

Lemma rstrip_all_space (s : string) : all_space s = true -> rstrip s = EmptyString.
Proof.
  induction s as [|c r IH]; simpl; [reflexivity|].
  intros H. apply andb_true_iff in H. destruct H as [Hc Hr].
  rewrite (IH Hr), Hc. reflexivity.
Qed.

Lemma lstrip_space_app (ws s : string) :
  all_space ws = true -> lstrip (ws ++ s) = lstrip s.
Proof.
  induction ws as [|c r IH]; simpl; [reflexivity|].
  intros H. apply andb_true_iff in H. destruct H as [Hc Hr].
  rewrite Hc. exact (IH Hr).
Qed.

Lemma rstrip_app_space (s ws : string) :
  all_space ws = true -> rstrip (s ++ ws) = rstrip s.
Proof.
  intros H. induction s as [|c r IH]; simpl.
  - apply rstrip_all_space. exact H.
  - rewrite IH. reflexivity.
Qed.

Lemma lstrip_app (s ws : string) :
  lstrip (s ++ ws)
  = if all_space s then lstrip ws else (lstrip s ++ ws)%string.
Proof.
  induction s as [|c r IH]; simpl; [reflexivity|].
  destruct (is_space c); simpl; [exact IH | reflexivity].
Qed.

Lemma strip_surrounded (ws1 line ws2 : string) :
  all_space ws1 = true -> all_space ws2 = true ->
  strip (ws1 ++ line ++ ws2) = strip line.
Proof.
  intros H1 H2. unfold strip.
  rewrite (@lstrip_space_app ws1 (line ++ ws2) H1), lstrip_app.
  destruct (all_space line) eqn:A.
  - rewrite (@lstrip_all_space ws2 H2), (@lstrip_all_space line A).
    reflexivity.
  - apply rstrip_app_space. exact H2.
Qed.

(** X17: white space before and after a report line does not count: a
    line is parsed the same with or without the indentation of its first
    column, its final newline or a carriage return before it. *)
Theorem surrounding_space_ignored :
  forall ws1 line ws2 : string,
    all_space ws1 = true -> all_space ws2 = true ->
    parse_row (ws1 ++ line ++ ws2) = parse_row line.
Proof.
  intros ws1 line ws2 H1 H2. unfold parse_row.
  rewrite (@strip_surrounded ws1 line ws2 H1 H2). reflexivity.
Qed.

Lemma surrounding_space_ignored_witness :
  parse_row ("  " ++ ("12.50" ++ TABS ++ "100" ++ TABS ++ "50" ++ TABS ++ "S"
                      ++ TABS ++ "9606" ++ TABS ++ "Homo sapiens")
             ++ String "013" NLS)
  = parse_row ("12.50" ++ TABS ++ "100" ++ TABS ++ "50" ++ TABS ++ "S"
               ++ TABS ++ "9606" ++ TABS ++ "Homo sapiens").
Proof.
  apply surrounding_space_ignored; reflexivity.
Defined.

(* ================================================================== *)
(** * From the rows read to the merged table *)
(* ================================================================== *)

Lemma rows_read_In_iff w kraken_dir names file_name line :
  In (file_name, line) (rows_read w kraken_dir names) <->
  In file_name names /\ is_report file_name = true /\
  exists text,
    read_text w (os_path_join kraken_dir file_name) = Some text /\
    In line (file_lines text).
Proof.
  unfold rows_read. rewrite in_flat_map. split.
  - intros (n & Hn & Hin).
    destruct (is_report n) eqn:R; [|contradiction].
    destruct (read_text w (os_path_join kraken_dir n)) as [text|] eqn:T;
      [|contradiction].
    apply in_map_iff in Hin. destruct Hin as (l & Hl & Hline).
    injection Hl as <- <-. split; [exact Hn|]. split; [exact R|].
    exists text. split; [exact T | exact Hline].
  - intros (Hn & R & text & T & Hline). exists file_name.
    split; [exact Hn|]. rewrite R, T. apply in_map. exact Hline.
Qed.


(** A write of the merged table: the metadata, the listing, the records
    of the completed scan and the rendered rows behind it. *)
Lemma merged_write_inv w kraken_dir metadata_file sample_id_df read_count
    path content :
  In (WriteFile path content)
     (snd (aggregate_kraken_results w kraken_dir metadata_file sample_id_df
             read_count)) ->
  exists md names agg ids rows,
    resolve_metadata w metadata_file sample_id_df = Some md /\
    columns md <> [] /\
    listdir w kraken_dir = Some names /\
    scan_reports w md read_count kraken_dir = Some (agg, ids) /\
    path = os_path_join kraken_dir MERGED_NAME /\
    omap_all (fun kv => render_row (headers md) (snd kv)) agg = Some rows /\
    content = (header_line md ++ rows_text rows)%string.
Proof.
  intros H. apply aggregate_events in H.
  destruct H as (md & agg & ids & content' & ok & Hg & Hw & [H|H]);
    [|discriminate].
  injection H as -> ->.
  destruct (@gather_rows_written w kraken_dir metadata_file sample_id_df
              read_count md agg ids Hg) as [content'' W].
  rewrite W in Hw. injection Hw as <- <-.
  apply gather_spec in Hg. destruct Hg as (Hmd & Hc & Hs).
  apply write_rows_spec in W. destruct W as (rows & -> & _ & Hok).
  specialize (Hok eq_refl).
  pose proof (scan_reports_spec _ _ _ _ Hs) as (names & Hl & _).
  exists md, names, agg, ids, rows. auto 8.
Qed.

Lemma render_row_vals hs data row :
  render_row hs data = Some row ->
  exists vals,
    row = join TABS vals /\
    map Some vals = map (fun col => option_map cell_str (dict_get col data)) hs.
Proof.
  unfold render_row.
  destruct (omap_all (fun col => option_map cell_str (dict_get col data)) hs)
    as [vals|] eqn:Hv; simpl; [|discriminate].
  intros H. injection H as <-. exists vals. split; [reflexivity|].
  apply omap_all_map. exact Hv.
Qed.

Lemma scan_keys_selected w md read_count kraken_dir names agg ids k :
  listdir w kraken_dir = Some names ->
  scan_reports w md read_count kraken_dir = Some (agg, ids) ->
  (In k (dict_keys agg) <->
   exists file_name line r,
     In (file_name, line) (rows_read w kraken_dir names) /\
     parse_row line = Some r /\
     selected md read_count file_name r /\
     k = (extracted_part file_name ++ ncbi_ID r)%string).
Proof.
  intros Hl Hs. apply scan_reports_spec in Hs.
  destruct Hs as (names' & Hl' & Hst).
  assert (names' = names) by congruence. subst names'.
  injection Hst as -> _. rewrite absorb_all_keys. split.
  - intros ([fn line] & v & Hin & Hc).
    apply contribution_Some_iff in Hc.
    destruct Hc as (r & m & Hp & Hr & Hi & _ & Hk & _).
    exists fn, line, r. split; [exact Hin|]. split; [exact Hp|].
    split; [|exact Hk]. apply selected_iff. rewrite Hr, Hi. reflexivity.
  - intros (fn & line & r & Hin & Hp & Hsel & Hk).
    apply selected_iff in Hsel. apply andb_true_iff in Hsel.
    destruct Hsel as [Hr Hi].
    destruct (id_present_find _ _ Hi) as [m Hm].
    exists (fn, line), (build_record r (extracted_part fn) m).
    split; [exact Hin|]. apply contribution_Some_iff.
    exists r, m. auto 6.
Qed.




Lemma dict_In_get (V : Type) (d : PyDict V) (k : string) (v : V) :
  NoDup (dict_keys d) -> In (k, v) d -> dict_get k d = Some v.
Proof.
  unfold dict_keys. induction d as [|[k' v'] d IH]; simpl; intros Hnd Hin;
    [contradiction|].
  inversion Hnd as [|? ? Hnin Hnd']; subst.
  destruct Hin as [H|H].
  - injection H as -> ->. rewrite String.eqb_refl. reflexivity.
  - destruct (String.eqb k k') eqn:E.
    + apply String.eqb_eq in E. subst k'. exfalso. apply Hnin.
      apply in_map_iff. exists (k, v). split; [reflexivity | exact H].
    + apply IH; assumption.
Qed.

(** C2 as stated fails, in two ways.  With the same species on two lines
    of a report: when a metadata column is labelled [Scientific_name], the
    data row shows the metadata value where the name of the last line
    ([second]) is expected; and when the last line falls below the
    threshold, the data row holds the values of the first line. *)
Lemma last_row_values_not_kept :
  (aggregate_kraken_results (one_report_world two_counts_report) "k" None
     (Some clashing_metadata) 0
   = (Some "k/merged_kraken1.tsv",
      [WriteFile "k/merged_kraken1.tsv"
         (header_line clashing_metadata
          ++ "2.0" ++ TABS ++ "11" ++ TABS ++ "10" ++ TABS ++ "S" ++ TABS
          ++ "562" ++ TABS ++ "curated" ++ TABS ++ "s_1" ++ TABS
          ++ "curated" ++ NLS);
       WriteCsv "k/sample_ids.csv" "Sample_IDs" ["s_1"; "s_1"]]))
  /\ (aggregate_kraken_results (one_report_world two_counts_report) "k" None
        (Some sample_metadata) 30
      = (Some "k/merged_kraken1.tsv",
         [WriteFile "k/merged_kraken1.tsv"
            (header_line sample_metadata
             ++ "1.0" ++ TABS ++ "60" ++ TABS ++ "50" ++ TABS ++ "S" ++ TABS
             ++ "562" ++ TABS ++ "first" ++ TABS ++ "s_1" ++ TABS
             ++ "Lagos" ++ NLS);
          WriteCsv "k/sample_ids.csv" "Sample_IDs" ["s_1"; "s_1"]]))
  /\ option_map (fun r => (ncbi_ID r, scientific_name r))
       (parse_row (last (file_lines two_counts_report) EmptyString))
     = Some ("562", "second").
Proof. repeat split; vm_compute; reflexivity. Qed.

(** C2, amended: the key of a record is the sample identifier immediately
    followed by the taxon identifier.  Whenever the merged table is
    written it holds, after the header, exactly one data row for each key,
    and that row is the TAB-joined text of the record built from the last
    row, in the order read, that met the three conditions under that key:
    its fixed fields hold that row's values, except under a name that is
    also the label of a metadata column. *)
Theorem last_row_wins :
  forall (w : World) (kraken_dir : string) (metadata_file : option string)
         (sample_id_df : option DataFrame) (read_count : Z)
         (path content : string),
    In (WriteFile path content)
       (snd (aggregate_kraken_results w kraken_dir metadata_file
               sample_id_df read_count)) ->
    exists md names aggregated_results sampleid rows,
      resolve_metadata w metadata_file sample_id_df = Some md /\
      listdir w kraken_dir = Some names /\
      scan_reports w md read_count kraken_dir
      = Some (aggregated_results, sampleid) /\
      content = (header_line md ++ rows_text rows)%string /\
      NoDup (dict_keys aggregated_results) /\
      (forall file_name line r,
          In (file_name, line) (rows_read w kraken_dir names) ->
          parse_row line = Some r ->
          selected md read_count file_name r ->
          In (extracted_part file_name ++ ncbi_ID r)%string
             (dict_keys aggregated_results)) /\
      Forall2
        (fun kv row =>
           exists pre file_name line post r m vals,
             rows_read w kraken_dir names = pre ++ (file_name, line) :: post /\
             parse_row line = Some r /\
             selected md read_count file_name r /\
             sample_metadata_of md (extracted_part file_name) = Some m /\
             fst kv = (extracted_part file_name ++ ncbi_ID r)%string /\
             snd kv = build_record r (extracted_part file_name) m /\
             (forall file_name' line' r',
                 In (file_name', line') post ->
                 parse_row line' = Some r' ->
                 (extracted_part file_name' ++ ncbi_ID r')%string = fst kv ->
                 ~ selected md read_count file_name' r') /\
             (forall h, In h FIXED_HEADERS -> ~ In h (columns md) ->
                        dict_get h (snd kv)
                        = dict_get h (fixed_fields r (extracted_part file_name))) /\
             row = join TABS vals /\
             map Some vals
             = map (fun col => option_map cell_str (dict_get col (snd kv)))
                 (headers md))
        aggregated_results rows.
Proof.
  intros w kraken_dir metadata_file sample_id_df read_count path content H.
  apply merged_write_inv in H.
  destruct H as (md & names & agg & ids & rows & Hmd & _ & Hl & Hs & _
                 & Hrows & ->).
  assert (Hnd : NoDup (dict_keys agg)).
  { pose proof (scan_reports_spec _ _ _ _ Hs) as (names' & _ & Hst).
    injection Hst as -> _. apply absorb_all_NoDup. constructor. }
  exists md, names, agg, ids, rows.
  split; [exact Hmd|]. split; [exact Hl|]. split; [exact Hs|].
  split; [reflexivity|]. split; [exact Hnd|]. split.
  - intros fn line r Hin Hp Hsel.
    apply (proj2 (@scan_keys_selected w md read_count kraken_dir names agg ids
                    _ Hl Hs)).
    exists fn, line, r. auto.
  - eapply omap_all_Forall2; [|exact Hrows].
    intros [k rec] row Hin Hrender. simpl in *.
    pose proof (@dict_In_get _ agg k rec Hnd Hin) as Hget.
    pose proof (scan_reports_spec _ _ _ _ Hs) as (names' & Hl' & Hst).
    assert (names' = names) by congruence. subst names'.
    injection Hst as Hagg _. rewrite Hagg in Hget.
    apply absorb_all_get in Hget.
    destruct Hget as (pre & [fn line] & post & Hread & Hc & Hsil).
    apply contribution_Some_iff in Hc.
    destruct Hc as (r & m & Hp & Hr & Hi & Hm & Hk & Hrec).
    destruct (@render_row_vals (headers md) rec row Hrender)
      as (vals & Hrow & Hvals).
    exists pre, fn, line, post, r, m, vals.
    split; [exact Hread|]. split; [exact Hp|].
    split; [apply selected_iff; rewrite Hr, Hi; reflexivity|].
    split; [exact Hm|]. split; [exact Hk|]. split; [exact Hrec|].
    split; [|split; [|split; [exact Hrow | exact Hvals]]].
    + intros fn' line' r' Hin' Hp' Hk' Hsel.
      apply selected_iff in Hsel. rewrite silent_iff in Hsil.
      rewrite (Hsil fn' line' r' Hin' Hp' Hk') in Hsel. discriminate.
    + intros h _ Hn. subst rec.
      exact (@build_record_fixed md r _ m h Hm Hn).
Qed.

Lemma last_row_wins_witness :
  exists md rows,
    resolve_metadata (one_report_world two_counts_report) None
      (Some sample_metadata) = Some md /\
    (header_line sample_metadata
     ++ "2.0" ++ TABS ++ "11" ++ TABS ++ "10" ++ TABS ++ "S" ++ TABS
     ++ "562" ++ TABS ++ "second" ++ TABS ++ "s_1" ++ TABS
     ++ "Lagos" ++ NLS)%string
    = (header_line md ++ rows_text rows)%string /\
    length rows = 1%nat.
Proof.
  destruct (@last_row_wins (one_report_world two_counts_report) "k" None
              (Some sample_metadata) 0 "k/merged_kraken1.tsv"
              (header_line sample_metadata
               ++ "2.0" ++ TABS ++ "11" ++ TABS ++ "10" ++ TABS ++ "S" ++ TABS
               ++ "562" ++ TABS ++ "second" ++ TABS ++ "s_1" ++ TABS
               ++ "Lagos" ++ NLS)%string)
    as (md & names & agg & ids & rows & Hmd & Hl & Hs & Hc & Hnd & Hkeys & Hall).
  - vm_compute. left. reflexivity.
  - exists md, rows. split; [exact Hmd|]. split; [exact Hc|].
    assert (Hagg : length agg = 1%nat).
    { vm_compute in Hmd. injection Hmd as <-.
      vm_compute in Hs. injection Hs as <- _. reflexivity. }
    rewrite <- Hagg. symmetry. exact (Forall2_length Hall).
Defined.

(* ================================================================== *)
(** * Report files and sample identifiers *)
(* ================================================================== *)



(* ================================================================== *)
(** * Where the metadata comes from *)
(* ================================================================== *)




(* ================================================================== *)
(** * Reading the merged table back *)
(* ================================================================== *)




















(* ================================================================== *)
(** * From process_sample to the aggregation *)
(* ================================================================== *)

(** X5: the two functions compose.  When [process_sample] hands back the
    precomputed report of a base name, and the aggregation of the same
    directory, whose listing holds [<base_name>_report.txt], writes its
    sample-id list, then the aggregation has opened that very file, has
    met each of its lines as a row of that entry, and, the file not being
    empty, has entered the base name itself in the sample-id list. *)
Theorem precomputed_report_is_aggregated :
  forall (w : World)
         (forward reverse base_name bowtie2_index kraken_db output_dir : string)
         (threads : Z) (run_bowtie : bool) (p : string)
         (metadata_file : option string) (sample_id_df : option DataFrame)
         (read_count : Z) (names : list string)
         (path column : string) (values : list string),
    fst (process_sample w forward reverse base_name bowtie2_index kraken_db
           output_dir threads run_bowtie true) = Returns (Some p) ->
    listdir w output_dir = Some names ->
    In (base_name ++ "_report.txt")%string names ->
    In (WriteCsv path column values)
       (snd (aggregate_kraken_results w output_dir metadata_file sample_id_df
               read_count)) ->
    exists text,
      read_text w p = Some text /\
      (forall line,
          In line (file_lines text) ->
          In ((base_name ++ "_report.txt")%string, line)
             (rows_read w output_dir names)) /\
      (file_lines text <> [] -> In base_name values).
Proof.
  intros w forward reverse base_name bowtie2_index kraken_db output_dir
         threads run_bowtie p metadata_file sample_id_df read_count names
         path column values Hp Hl Hin Hcsv.
  assert (Hpath : p = os_path_join output_dir (base_name ++ REPORT_SUFFIX)).
  { revert Hp. unfold process_sample, process_sample_body,
      precomputed_report_path. simpl negb.
    destruct (path_exists w (os_path_join output_dir
                               (base_name ++ REPORT_SUFFIX))); simpl;
      [intros H; injection H as <-; reflexivity | discriminate]. }
  assert (Hrep : is_report (base_name ++ REPORT_SUFFIX) = true)
    by apply endswith_app.
  apply aggregate_events in Hcsv.
  destruct Hcsv as (md & agg & ids & content & ok & Hg & _ & [H|H]);
    [discriminate|].
  injection H as _ _ ->.
  apply gather_spec in Hg. destruct Hg as (_ & _ & Hs).
  assert (Hs' := Hs). unfold scan_reports in Hs'. rewrite Hl in Hs'.
  simpl in Hs'.
  destruct (scan_files_opens _ _ _ _ _ _ Hs' _ Hin Hrep) as [text T].
  exists text. rewrite Hpath. split; [exact T|].
  assert (Hrows : forall line,
             In line (file_lines text) ->
             In ((base_name ++ REPORT_SUFFIX)%string, line)
                (rows_read w output_dir names)).
  { intros line Hline. apply rows_read_In_iff.
    split; [exact Hin|]. split; [exact Hrep|]. exists text. auto. }
  split; [exact Hrows|].
  intros Hne. apply scan_files_spec in Hs'. injection Hs' as _ ->.
  destruct (file_lines text) as [|line rest] eqn:E; [congruence|].
  simpl. apply in_map_iff.
  exists ((base_name ++ REPORT_SUFFIX)%string, line). split.
  - simpl. apply extracted_part_app.
  - apply Hrows. left. reflexivity.
Qed.

Lemma precomputed_report_is_aggregated_witness :
  exists text,
    read_text archive_world "k/s_1_report.txt" = Some text /\
    (forall line,
        In line (file_lines text) ->
        In (("s_1" ++ "_report.txt")%string, line)
           (rows_read archive_world "k" ["s_1_report.txt"; "notes.txt"])) /\
    (file_lines text <> [] -> In "s_1" ["s_1"; "s_1"]).
Proof.
  apply (@precomputed_report_is_aggregated archive_world "r1.fq" "r2.fq"
           "s_1" "idx" "db" "k" 4 true "k/s_1_report.txt" None
           (Some sample_metadata) 30 ["s_1_report.txt"; "notes.txt"]
           "k/sample_ids.csv" "Sample_IDs" ["s_1"; "s_1"]).
  - reflexivity.
  - reflexivity.
  - left. reflexivity.
  - vm_compute. right. left. reflexivity.
Defined.

(* ================================================================== *)
(** * Further worked examples *)
(* ================================================================== *)

(** [int()] does not skip the separator FS, which [str.strip()] drops:
    a count written with it stops the aggregation. *)
Example fs_count_aborts :
  py_int (String "028" "50") = None /\
  strip (String "028" "50") = "50" /\
  aggregate_kraken_results (one_report_world fs_count_report) "k" None
    (Some sample_metadata) 0 = (None, []).
Proof. repeat split; vm_compute; reflexivity. Qed.

(** Blanks around the count, a sign and single underscores are read;
    a blank after the sign or a doubled underscore is not. *)
Example py_int_literals :
  py_int (String "009" " +1_000 ") = Some 1000%Z /\
  py_int "- 5" = None /\ py_int "1__0" = None /\ py_int "-0" = Some 0%Z.
Proof. repeat split; reflexivity. Qed.

(* ================================================================== *)
(** * The size of a parsed count *)
(* ================================================================== *)

Lemma digit_count_nonneg (s : string) : (0 <= digit_count s)%Z.
Proof.
  induction s as [|c r IH]; simpl; [lia|]. destruct (is_digit c); lia.
Qed.

Lemma digit_value_range (c : ascii) :
  is_digit c = true -> (0 <= digit_value c <= 9)%Z.
Proof.
  unfold is_digit, digit_value. intros H. apply andb_true_iff in H.
  destruct H as [H1 H2]. apply Nat.leb_le in H1. apply Nat.leb_le in H2.
  generalize dependent (nat_of_ascii c). intros k H1 H2. lia.
Qed.

Lemma int_digits_cons (c : ascii) (r : string) (acc : Z) (prev : bool) :
  int_digits (String c r) acc prev
  = if is_digit c then int_digits r (10 * acc + digit_value c)%Z true
    else if Ascii.eqb c UNDERSCORE then
           (if prev then int_digits r acc false else None)
         else None.
Proof. reflexivity. Qed.

Lemma int_digits_bound (s : string) : forall acc prev n,
  (0 <= acc)%Z ->
  int_digits s acc prev = Some n ->
  (0 <= n < (acc + 1) * 10 ^ digit_count s)%Z.
Proof.
  induction s as [|c r IH]; intros acc prev n Hacc H.
  - simpl in H. destruct prev; [|discriminate]. injection H as <-.
    simpl. lia.
  - rewrite int_digits_cons in H. simpl digit_count.
    pose proof (digit_count_nonneg r) as Hdc.
    destruct (is_digit c) eqn:D.
    + pose proof (digit_value_range c D) as Hd.
      apply IH in H; [|lia].
      rewrite Z.pow_add_r by lia. change (10 ^ 1)%Z with 10%Z.
      assert (0 < 10 ^ digit_count r)%Z by (apply Z.pow_pos_nonneg; lia).
      nia.
    + destruct (Ascii.eqb c UNDERSCORE); [|discriminate].
      destruct prev; [|discriminate].
      apply IH in H; [|exact Hacc]. simpl. exact H.
Qed.

(** A count that [py_int] reads stays below ten to the power
    [MAX_STR_DIGITS]: [str] is applied to it within its limit. *)
Lemma py_int_bound (s : string) (n : Z) :
  py_int s = Some n -> (Z.abs n < 10 ^ MAX_STR_DIGITS)%Z.
Proof.
  unfold py_int. generalize MAX_STR_DIGITS as M. intros M.
  destruct (int_rstrip (int_lstrip s)) as [|c r]; [discriminate|].
  set (body := if Ascii.eqb c "-" || Ascii.eqb c "+" then r else String c r).
  cbv zeta.
  destruct (digit_count body <=? M)%Z eqn:L; [|discriminate].
  apply Z.leb_le in L. intros H.
  assert (Hb : forall m, int_digits body 0%Z false = Some m ->
                         (0 <= m < 10 ^ M)%Z).
  { intros m Hm. apply int_digits_bound in Hm; [|lia].
    pose proof (digit_count_nonneg body).
    assert (10 ^ digit_count body <= 10 ^ M)%Z
      by (apply Z.pow_le_mono_r; lia).
    lia. }
  destruct (Ascii.eqb c "-").
  - destruct (int_digits body 0%Z false) as [m|]; [|discriminate].
    injection H as <-. specialize (Hb m eq_refl). lia.
  - specialize (Hb n H). lia.
Qed.
